(** * The payment-confirmation webhook of [main.py]

    A shallow embedding of [c2b_mpesa_confirmation_resource]: the request
    body is an untyped JSON value read by subscripting, the key-value store
    is a finite map from string keys to string values, and Python's
    exceptions are an explicit error type threaded through the handler. *)

From Stdlib Require Import ZArith PrimFloat.
From stdpp Require Import base option list strings gmap.

Local Open Scope Z_scope.
Local Open Scope string_scope.

(** ** Values *)

(** What [json.loads] builds from a request body.  A dict is kept as its
    items in insertion order; its keys are pairwise distinct. *)
#[local] Unset Elimination Schemes.
Inductive json : Type :=
| JNull
| JBool (b : bool)
| JInt (n : Z)
| JFloat (f : float)
| JStr (s : string)
| JArr (xs : list json)
| JObj (kvs : list (string * json)).
#[local] Set Elimination Schemes.

(** ** Exceptions *)

Inductive exn : Type :=
| KeyError (k : string)
| TypeError
| StopIteration
| RuntimeError
| ValidationError
| HTTPException (status_code : Z) (detail : json).

Inductive result (A : Type) : Type :=
| Ok (a : A)
| Raise (e : exn).
Arguments Ok {A} a.
Arguments Raise {A} e.

#[global] Instance result_ret : MRet result := λ A a, Ok a.
#[global] Instance result_bind : MBind result := λ A B f m,
  match m with
  | Ok a => f a
  | Raise e => Raise e
  end.

(** ** Library behaviour the handler relies on

    [json.dumps], the text an f-string gives a value that is not a [str], and
    the coercion pydantic applies to a value that is neither [None] nor a
    [str] when the field is declared [Optional[str]] (pydantic 1 turns
    numbers into text, pydantic 2 rejects them) are not code of this
    program; the model takes them as given. *)
Class PyRuntime : Type := {
  json_dumps : json → string;
  str_other : json → string;
  coerce_str : json → option string
}.

(** ** Python primitives *)

Fixpoint assoc (k : string) (kvs : list (string * json)) : option json :=
  match kvs with
  | [] => None
  | (k', v) :: rest => if String.eqb k k' then Some v else assoc k rest
  end.

(** [v[k]] for a string key [k]. *)
Definition getitem (v : json) (k : string) : result json :=
  match v with
  | JObj kvs =>
      match assoc k kvs with
      | Some x => Ok x
      | None => Raise (KeyError k)
      end
  | _ => Raise TypeError
  end.

(** [iter(v)], run to the end: a list gives its elements, a dict its keys, a
    string its characters (each a string again, which is all the handler can
    observe of them); nothing else is iterable. *)
Definition py_iter (v : json) : result (list json) :=
  match v with
  | JArr xs => Ok xs
  | JObj kvs => Ok (map (λ kv, JStr (fst kv)) kvs)
  | JStr s => Ok (map (λ c, JStr (String c EmptyString)) (String.list_ascii_of_string s))
  | _ => Raise TypeError
  end.

(** [v == 0]: [False], [0] and [0.0] (of either sign) are equal to [0]. *)
Definition py_eq_zero (v : json) : bool :=
  match v with
  | JBool b => negb b
  | JInt n => Z.eqb n 0
  | JFloat f => PrimFloat.eqb f PrimFloat.zero
  | _ => false
  end.

(** [v == s] for a string literal [s]. *)
Definition py_eq_str (v : json) (s : string) : bool :=
  match v with
  | JStr s' => String.eqb s' s
  | _ => false
  end.

(** [next(item["Value"] for item in items if item["Name"] == name)], on the
    elements the iterator yields. *)
Fixpoint next_value (name : string) (items : list json) : result json :=
  match items with
  | [] => Raise StopIteration
  | item :: rest =>
      n ← getitem item "Name";
      if py_eq_str n name then getitem item "Value" else next_value name rest
  end.

Definition next_named (name : string) (CallbackMetadata : json) : result json :=
  items ← py_iter CallbackMetadata;
  next_value name items.

(** [str(e)] for [e = KeyError(k)] is [repr(k)]; every key the handler looks
    up is a plain identifier, whose [repr] is the key in single quotes. *)
Definition str_KeyError (k : string) : string := "'" +:+ k +:+ "'".

(** [f'{v}'] *)
Definition format_value `{PyRuntime} (v : json) : string :=
  match v with
  | JStr s => s
  | _ => str_other v
  end.

(** ** The store *)

(** The Redis database, with the [SET] commands it has received.  The
    connection is taken to be up: [red.set] always goes through. *)
Record redis : Type := {
  db : gmap string string;
  set_calls : list (string * string)
}.

Definition redis_set (k v : string) (red : redis) : redis :=
  {| db := <[k := v]> (db red); set_calls := set_calls red ++ [(k, v)] |}.

(** ** The handler's monad: store passing with exceptions *)

Definition Py (A : Type) : Type := redis → redis * result A.

#[global] Instance Py_ret : MRet Py := λ A a red, (red, Ok a).
#[global] Instance Py_bind : MBind Py := λ A B f m red,
  match m red with
  | (red', Ok a) => f a red'
  | (red', Raise e) => (red', Raise e)
  end.

Definition pure {A} (r : result A) : Py A := λ red, (red, r).
Definition raise {A} (e : exn) : Py A := λ red, (red, Raise e).
Definition red_set (k v : string) : Py unit := λ red, (redis_set k v red, Ok tt).

(** ** Response models *)

Record PaymentConfirmation : Type := {
  receipt_id : option string;
  success : bool;
  errors : option string
}.

Definition validate_optional_str `{PyRuntime} (v : json) : result (option string) :=
  match v with
  | JNull => Ok None
  | JStr s => Ok (Some s)
  | _ =>
      match coerce_str v with
      | Some s => Ok (Some s)
      | None => Raise ValidationError
      end
  end.

(** [PaymentConfirmation(receipt_id=.., success=.., errors=..)] *)
Definition new_PaymentConfirmation `{PyRuntime}
    (rid : json) (ok : bool) (errs : json) : result PaymentConfirmation :=
  r ← validate_optional_str rid;
  e ← validate_optional_str errs;
  Ok {| receipt_id := r; success := ok; errors := e |}.

(** [HTTPException(status_code=400, detail=detail)]: the constructor puts
    the phrase of the status in the place of a detail that is [None]. *)
Definition HTTPException_400 (detail : json) : exn :=
  HTTPException 400
    (match detail with
     | JNull => JStr "Bad Request"
     | _ => detail
     end).

(** ** [c2b_mpesa_confirmation_resource] *)

Section handler.
Context `{PyRuntime}.

(** The body of the [try]. *)
Definition try_body (c2b_mpesa_request : json) : Py PaymentConfirmation :=
  Body ← pure (getitem c2b_mpesa_request "Body");
  stk_callback ← pure (getitem Body "stkCallback");
  MerchantRequestID ← pure (getitem stk_callback "MerchantRequestID");
  CheckoutRequestID ← pure (getitem stk_callback "CheckoutRequestID");
  ResultCode ← pure (getitem stk_callback "ResultCode");
  ResultDesc ← pure (getitem stk_callback "ResultDesc");
  if py_eq_zero ResultCode then
    meta ← pure (getitem stk_callback "CallbackMetadata");
    CallbackMetadata ← pure (getitem meta "Item");
    Amount ← pure (next_named "Amount" CallbackMetadata);
    MpesaReceiptNumber ← pure (next_named "MpesaReceiptNumber" CallbackMetadata);
    TransactionDate ← pure (next_named "TransactionDate" CallbackMetadata);
    PhoneNumber ← pure (next_named "PhoneNumber" CallbackMetadata);
    let transc := JObj [
      ("MerchantRequestID", MerchantRequestID);
      ("CheckoutRequestID", CheckoutRequestID);
      ("ResultCode", ResultCode);
      ("ResultDesc", ResultDesc);
      ("Amount", Amount);
      ("MpesaReceiptNumber", MpesaReceiptNumber);
      ("TransactionDate", TransactionDate);
      ("PhoneNumber", PhoneNumber)] in
    red_set ("receipt:" +:+ format_value CheckoutRequestID) (json_dumps transc);;
    rid ← pure (getitem transc "MpesaReceiptNumber");
    rc ← pure (getitem transc "ResultCode");
    errs ← pure (getitem transc "ResultDesc");
    pure (new_PaymentConfirmation rid (if py_eq_zero rc then true else false) errs)
  else
    let transc := JObj [
      ("MerchantRequestID", MerchantRequestID);
      ("CheckoutRequestID", CheckoutRequestID);
      ("ResultCode", ResultCode);
      ("ResultDesc", ResultDesc)] in
    red_set ("receipt:" +:+ format_value CheckoutRequestID) (json_dumps transc);;
    raise (HTTPException_400 ResultDesc).

(** [except KeyError as e]: the only exception the handler catches.  The
    detail it raises is a string, which the constructor keeps. *)
Definition except_KeyError (r : result PaymentConfirmation) : result PaymentConfirmation :=
  match r with
  | Raise (KeyError k) =>
      Raise (HTTPException 400 (JStr ("Missing required field: " +:+ str_KeyError k)))
  | _ => r
  end.

(** The handler is a coroutine: a [StopIteration] that leaves its body
    comes out as a [RuntimeError]. *)
Definition coroutine_exit (r : result PaymentConfirmation) : result PaymentConfirmation :=
  match r with
  | Raise StopIteration => Raise RuntimeError
  | _ => r
  end.

Definition c2b_mpesa_confirmation_resource (c2b_mpesa_request : json) : Py PaymentConfirmation :=
  λ red,
    let '(red', r) := try_body c2b_mpesa_request red in
    (red', coroutine_exit (except_KeyError r)).

End handler.

(** What [json.dumps(.., allow_nan=False)] accepts: a value that holds no
    [NaN] and no infinity, at any depth. *)
Fixpoint json_finite (v : json) : bool :=
  match v with
  | JFloat f => PrimFloat.is_finite f
  | JArr xs => forallb json_finite xs
  | JObj kvs => forallb (λ kv, match kv with (_, x) => json_finite x end) kvs
  | _ => true
  end.

(** The status line the framework answers with: the model's status on a
    return; for an [HTTPException] its own status, with the detail as the
    body, unless the detail cannot be rendered with [allow_nan=False], which
    fails the response; and a server error for anything else that escapes
    the handler. *)
Definition http_status (r : result PaymentConfirmation) : Z :=
  match r with
  | Ok _ => 200
  | Raise (HTTPException status_code detail) =>
      if json_finite detail then status_code else 500
  | Raise _ => 500
  end.

Definition client_error (status : Z) : Prop := 400 ≤ status < 500.

(** ** Vocabulary of the statements *)

(** The callback envelope: the payload, its [Body] and the [stkCallback]
    inside are objects, and [stkCallback] carries the four required fields. *)
Inductive callback_envelope :
    json → list (string * json) → json → json → json → json → Prop :=
| envelope_intro top body stk mid cid rc rd :
    assoc "Body" top = Some (JObj body) →
    assoc "stkCallback" body = Some (JObj stk) →
    assoc "MerchantRequestID" stk = Some mid →
    assoc "CheckoutRequestID" stk = Some cid →
    assoc "ResultCode" stk = Some rc →
    assoc "ResultDesc" stk = Some rd →
    callback_envelope (JObj top) stk mid cid rc rd.

(** [CallbackMetadata.Item] is the sequence [items]. *)
Inductive callback_metadata (stk : list (string * json)) (items : list json) : Prop :=
| metadata_intro meta :
    assoc "CallbackMetadata" stk = Some (JObj meta) →
    assoc "Item" meta = Some (JArr items) →
    callback_metadata stk items.

(** An entry with a [Name] other than [name]. *)
Definition entry_other (name : string) (item : json) : Prop :=
  ∃ kvs n, item = JObj kvs ∧ assoc "Name" kvs = Some n ∧ n ≠ JStr name.

(** An entry with both a [Name] and a [Value]. *)
Definition entry_pair (item : json) : Prop :=
  ∃ kvs n v, item = JObj kvs ∧ assoc "Name" kvs = Some n ∧ assoc "Value" kvs = Some v.

(** [v] is the [Value] of the first entry of [items] whose [Name] is [name]. *)
Inductive first_named (name : string) : list json → json → Prop :=
| first_named_intro pre kvs post v :
    Forall (entry_other name) pre →
    assoc "Name" kvs = Some (JStr name) →
    assoc "Value" kvs = Some v →
    first_named name (pre ++ JObj kvs :: post) v.

Definition metadata_names : list string :=
  ["Amount"; "MpesaReceiptNumber"; "TransactionDate"; "PhoneNumber"].

(** The two shapes of the persisted record. *)
Definition success_record (mid cid rc rd amount receipt date phone : json) : json :=
  JObj [("MerchantRequestID", mid); ("CheckoutRequestID", cid);
        ("ResultCode", rc); ("ResultDesc", rd);
        ("Amount", amount); ("MpesaReceiptNumber", receipt);
        ("TransactionDate", date); ("PhoneNumber", phone)].

Definition failure_record (mid cid rc rd : json) : json :=
  JObj [("MerchantRequestID", mid); ("CheckoutRequestID", cid);
        ("ResultCode", rc); ("ResultDesc", rd)].

Definition receipt_key `{PyRuntime} (cid : json) : string :=
  "receipt:" +:+ format_value cid.

(** The two paths that reach the store, with the [CheckoutRequestID] and the
    record each one persists. *)
Inductive receipt_of (req : json) : json → json → Prop :=
| success_path stk mid cid rc rd items amount receipt date phone :
    callback_envelope req stk mid cid rc rd →
    py_eq_zero rc = true →
    callback_metadata stk items →
    first_named "Amount" items amount →
    first_named "MpesaReceiptNumber" items receipt →
    first_named "TransactionDate" items date →
    first_named "PhoneNumber" items phone →
    receipt_of req cid (success_record mid cid rc rd amount receipt date phone)
| failure_path stk mid cid rc rd :
    callback_envelope req stk mid cid rc rd →
    py_eq_zero rc = false →
    receipt_of req cid (failure_record mid cid rc rd).

(** Where a field on the way to the four required ones is absent: the value
    found at a path of keys, when every value on the way is an object that
    has the next key. *)
Fixpoint lookup_path (v : json) (path : list string) : option json :=
  match path with
  | [] => Some v
  | k :: rest =>
      match v with
      | JObj kvs =>
          match assoc k kvs with
          | Some x => lookup_path x rest
          | None => None
          end
      | _ => None
      end
  end.

Definition required_fields : list (list string) :=
  [ ["Body"; "stkCallback"];
    ["Body"; "stkCallback"; "MerchantRequestID"];
    ["Body"; "stkCallback"; "CheckoutRequestID"];
    ["Body"; "stkCallback"; "ResultCode"];
    ["Body"; "stkCallback"; "ResultDesc"] ].

(** The lookups of the handler, in order, and the first key one of them
    does not find in the object it is looked up in. *)
Definition stk_fields : list string :=
  ["MerchantRequestID"; "CheckoutRequestID"; "ResultCode"; "ResultDesc"].

Definition has_key (kvs : list (string * json)) (k : string) : bool :=
  match assoc k kvs with Some _ => true | None => false end.

Inductive first_missing_key : json → string → Prop :=
| missing_Body top :
    assoc "Body" top = None →
    first_missing_key (JObj top) "Body"
| missing_stkCallback top body :
    assoc "Body" top = Some (JObj body) →
    assoc "stkCallback" body = None →
    first_missing_key (JObj top) "stkCallback"
| missing_field top body stk k :
    assoc "Body" top = Some (JObj body) →
    assoc "stkCallback" body = Some (JObj stk) →
    List.find (λ k, negb (has_key stk k)) stk_fields = Some k →
    first_missing_key (JObj top) k.

Definition is_object (v : json) : bool :=
  match v with JObj _ => true | _ => false end.

(** ** A runtime to evaluate the handler with

    [dumps] writes what [json.dumps] writes for [null], booleans, integers,
    lists, dicts and strings that need no escape; [str_of] writes what
    [str] writes for [None], booleans and integers; the validation is that
    of pydantic 2.  Floats and escapes, which the examples below do not use,
    are not rendered. *)
Module Sample.

Definition dquote : string := String (Ascii.ascii_of_nat 34) EmptyString.

Definition pretty_int (n : Z) : string := pretty.pretty n.

Fixpoint dumps (v : json) : string :=
  match v with
  | JNull => "null"
  | JBool true => "true"
  | JBool false => "false"
  | JInt n => pretty_int n
  | JFloat _ => "NaN"
  | JStr s => dquote +:+ s +:+ dquote
  | JArr xs =>
      "[" +:+
      (fix elems (xs : list json) : string :=
         match xs with
         | [] => ""
         | [x] => dumps x
         | x :: rest => dumps x +:+ ", " +:+ elems rest
         end) xs +:+ "]"
  | JObj kvs =>
      "{" +:+
      (fix members (kvs : list (string * json)) : string :=
         match kvs with
         | [] => ""
         | [(k, x)] => dquote +:+ k +:+ dquote +:+ ": " +:+ dumps x
         | (k, x) :: rest =>
             dquote +:+ k +:+ dquote +:+ ": " +:+ dumps x +:+ ", " +:+ members rest
         end) kvs +:+ "}"
  end.

Definition str_of (v : json) : string :=
  match v with
  | JNull => "None"
  | JBool true => "True"
  | JBool false => "False"
  | JInt n => pretty_int n
  | _ => dumps v
  end.

#[export] Instance runtime : PyRuntime :=
  {| json_dumps := dumps; str_other := str_of; coerce_str := λ _, None |}.

Definition entry (name : string) (value : json) : json :=
  JObj [("Name", JStr name); ("Value", value)].

Definition payload (stk : list (string * json)) : json :=
  JObj [("Body", JObj [("stkCallback", JObj stk)])].

(** A callback of a paid request. *)
Definition paid_items : list json :=
  [ entry "Amount" (JInt 1);
    entry "MpesaReceiptNumber" (JStr "NLJ7RT61SV");
    entry "TransactionDate" (JInt 20191219102115);
    entry "PhoneNumber" (JInt 254708374149) ].

Definition paid_stk : list (string * json) :=
  [ ("MerchantRequestID", JStr "29115-34620561-1");
    ("CheckoutRequestID", JStr "ws_CO_191220191020363925");
    ("ResultCode", JInt 0);
    ("ResultDesc", JStr "The service request is processed successfully.");
    ("CallbackMetadata", JObj [("Item", JArr paid_items)]) ].

(** A callback of a request the provider declined. *)
Definition declined_stk : list (string * json) :=
  [ ("MerchantRequestID", JStr "29115-34620561-1");
    ("CheckoutRequestID", JStr "ws_CO_191220191020363925");
    ("ResultCode", JInt 1);
    ("ResultDesc", JStr "Insufficient funds") ].

(** The same callback, the entry named "PhoneNumber" left out. *)
Definition no_phone_stk : list (string * json) :=
  [ ("MerchantRequestID", JStr "29115-34620561-1");
    ("CheckoutRequestID", JStr "ws_CO_191220191020363925");
    ("ResultCode", JInt 0);
    ("ResultDesc", JStr "The service request is processed successfully.");
    ("CallbackMetadata", JObj [("Item", JArr (take 3 paid_items))]) ].

(** The callback of a paid request with [ResultCode] replaced. *)
Definition paid_stk_with_code (rc : json) : list (string * json) :=
  [ ("MerchantRequestID", JStr "29115-34620561-1");
    ("CheckoutRequestID", JStr "ws_CO_191220191020363925");
    ("ResultCode", rc);
    ("ResultDesc", JStr "The service request is processed successfully.");
    ("CallbackMetadata", JObj [("Item", JArr paid_items)]) ].

(** An envelope without [ResultCode]. *)
Definition no_code_stk : list (string * json) :=
  [ ("MerchantRequestID", JStr "29115-34620561-1");
    ("CheckoutRequestID", JStr "ws_CO_191220191020363925");
    ("ResultDesc", JStr "Insufficient funds") ].

Definition empty_redis : redis := {| db := ∅; set_calls := [] |}.

(** The callback of a paid request, with the fields under [stkCallback] that
    follow [ResultDesc] replaced. *)
Definition paid_stk_with (rest : list (string * json)) : list (string * json) :=
  [ ("MerchantRequestID", JStr "29115-34620561-1");
    ("CheckoutRequestID", JStr "ws_CO_191220191020363925");
    ("ResultCode", JInt 0);
    ("ResultDesc", JStr "The service request is processed successfully.") ] ++ rest.

(** The callback of another paid request. *)
Definition other_paid_stk : list (string * json) :=
  [ ("MerchantRequestID", JStr "29115-34620561-2");
    ("CheckoutRequestID", JStr "ws_CO_191220191020364016");
    ("ResultCode", JInt 0);
    ("ResultDesc", JStr "The service request is processed successfully.");
    ("CallbackMetadata", JObj [("Item", JArr paid_items)]) ].

(** The entries of a paid callback as the provider sends them, with a
    "Balance" entry that has no [Value]. *)
Definition provider_items : list json :=
  [ entry "Amount" (JInt 1);
    entry "MpesaReceiptNumber" (JStr "NLJ7RT61SV");
    JObj [("Name", JStr "Balance")];
    entry "TransactionDate" (JInt 20191219102115);
    entry "PhoneNumber" (JInt 254708374149) ].

(** Entries whose "TransactionDate" has no [Value]. *)
Definition undated_items : list json :=
  [ entry "Amount" (JInt 1);
    entry "MpesaReceiptNumber" (JStr "NLJ7RT61SV");
    JObj [("Name", JStr "TransactionDate")];
    entry "PhoneNumber" (JInt 254708374149) ].

(** Entries whose receipt number is an integer. *)
Definition numbered_items : list json :=
  [ entry "Amount" (JInt 1);
    entry "MpesaReceiptNumber" (JInt 7761);
    entry "TransactionDate" (JInt 20191219102115);
    entry "PhoneNumber" (JInt 254708374149) ].

(** A declined callback whose [CheckoutRequestID] is [cid]. *)
Definition declined_stk_for (cid : json) : list (string * json) :=
  [ ("MerchantRequestID", JStr "29115-34620561-1");
    ("CheckoutRequestID", cid);
    ("ResultCode", JInt 1032);
    ("ResultDesc", JStr "Request cancelled by user") ].

(** A declined callback whose [ResultDesc] is [rd]. *)
Definition declined_stk_with (rd : json) : list (string * json) :=
  [ ("MerchantRequestID", JStr "29115-34620561-1");
    ("CheckoutRequestID", JStr "ws_CO_191220191020363925");
    ("ResultCode", JInt 1);
    ("ResultDesc", rd) ].

End Sample.

(** ** Vocabulary of the further properties *)

(** Every key the handler subscripts with, in the order of the source. *)
Definition lookup_keys : list string :=
  ["Body"; "stkCallback"; "MerchantRequestID"; "CheckoutRequestID"; "ResultCode";
   "ResultDesc"; "CallbackMetadata"; "Item"; "Name"; "Value"].

Definition missing_field_detail (k : string) : json :=
  JStr ("Missing required field: '" +:+ k +:+ "'").

Definition is_array (v : json) : bool :=
  match v with JArr _ => true | _ => false end.

(** What an invocation can come to: the store it leaves and its outcome. *)
Inductive handled `{PyRuntime} (req : json) (red : redis) :
    redis * result PaymentConfirmation → Prop :=
| handled_TypeError :
    handled req red (red, Raise TypeError)
| handled_RuntimeError :
    handled req red (red, Raise RuntimeError)
| handled_missing k :
    k ∈ lookup_keys →
    handled req red (red, Raise (HTTPException 400 (missing_field_detail k)))
| handled_failure stk mid cid rc rd :
    callback_envelope req stk mid cid rc rd →
    py_eq_zero rc = false →
    handled req red
      (redis_set (receipt_key cid) (json_dumps (failure_record mid cid rc rd)) red,
       Raise (HTTPException_400 rd))
| handled_success stk mid cid rc rd items amount receipt date phone :
    callback_envelope req stk mid cid rc rd →
    py_eq_zero rc = true →
    callback_metadata stk items →
    first_named "Amount" items amount →
    first_named "MpesaReceiptNumber" items receipt →
    first_named "TransactionDate" items date →
    first_named "PhoneNumber" items phone →
    handled req red
      (redis_set (receipt_key cid)
         (json_dumps (success_record mid cid rc rd amount receipt date phone)) red,
       new_PaymentConfirmation receipt true rd).

(** ** The handler in stages

    The lookups of the [try] body up to the branch, and those of the success
    branch up to the record; [try_body_stages] below shows the handler is
    their composition. *)
Definition read_callback (req : json) : result (json * json * json * json * json) :=
  Body ← getitem req "Body";
  stk ← getitem Body "stkCallback";
  mid ← getitem stk "MerchantRequestID";
  cid ← getitem stk "CheckoutRequestID";
  rc ← getitem stk "ResultCode";
  rd ← getitem stk "ResultDesc";
  Ok (stk, mid, cid, rc, rd).

Definition read_metadata (stk : json) : result (json * json * json * json) :=
  meta ← getitem stk "CallbackMetadata";
  Item ← getitem meta "Item";
  amount ← next_named "Amount" Item;
  receipt ← next_named "MpesaReceiptNumber" Item;
  date ← next_named "TransactionDate" Item;
  phone ← next_named "PhoneNumber" Item;
  Ok (amount, receipt, date, phone).

(** * Properties *)

Section properties.
Context `{PyRuntime}.

Implicit Types (req v item : json) (red : redis) (name k : string).

(** ** Primitives *)

Lemma py_eq_str_true v name : py_eq_str v name = true ↔ v = JStr name.
Proof.
  destruct v; simpl; try (split; [discriminate | intros [=]]).
  rewrite String.eqb_eq. split; [intros -> | intros [=]]; done.
Qed.

Lemma py_eq_str_false v name : py_eq_str v name = false ↔ v ≠ JStr name.
Proof.
  rewrite <- py_eq_str_true. destruct (py_eq_str v name); split; congruence.
Qed.

Lemma getitem_Ok v k x :
  getitem v k = Ok x ↔ ∃ kvs, v = JObj kvs ∧ assoc k kvs = Some x.
Proof.
  split.
  - destruct v as [| | | | | |kvs]; simpl; try discriminate.
    destruct (assoc k kvs) eqn:E; intros [=]; subst; eauto.
  - intros (kvs & -> & E). simpl. by rewrite E.
Qed.

(** ** Extraction from [CallbackMetadata.Item] *)

Lemma next_value_other name item rest :
  entry_other name item → next_value name (item :: rest) = next_value name rest.
Proof.
  intros (kvs & n & -> & En & Hn). apply py_eq_str_false in Hn.
  simpl. rewrite En. simpl. by rewrite Hn.
Qed.

Lemma next_value_first_named name items v :
  first_named name items v → next_value name items = Ok v.
Proof.
  intros [pre kvs post w Hpre En Ev].
  induction Hpre as [|item pre Hitem _ IH]; simpl app.
  - simpl. rewrite En. simpl. rewrite String.eqb_refl. simpl. by rewrite Ev.
  - by rewrite next_value_other.
Qed.

Lemma first_named_cons name item items v :
  entry_other name item → first_named name items v → first_named name (item :: items) v.
Proof.
  intros Hitem [pre kvs post w Hpre En Ev].
  apply (first_named_intro name (item :: pre) kvs post w); auto.
Qed.

Lemma next_value_Ok name items v :
  next_value name items = Ok v → first_named name items v.
Proof.
  induction items as [|item rest IH]; simpl; [discriminate|].
  destruct item as [| | | | | |kvs]; simpl; try discriminate.
  destruct (assoc "Name" kvs) as [n|] eqn:En; simpl; [|discriminate].
  destruct (py_eq_str n name) eqn:E.
  - apply py_eq_str_true in E as ->.
    destruct (assoc "Value" kvs) as [w|] eqn:Ev; intros [=]; subst.
    by apply (first_named_intro name [] kvs rest v).
  - intros Hrest. apply first_named_cons; [|by apply IH].
    exists kvs, n. by rewrite <- py_eq_str_false.
Qed.

Lemma next_value_absent name items :
  Forall (entry_other name) items → next_value name items = Raise StopIteration.
Proof.
  induction 1 as [|item rest Hitem _ IH]; [done|].
  by rewrite next_value_other.
Qed.

Lemma next_value_pairs name items :
  Forall entry_pair items →
  (∃ v, next_value name items = Ok v) ∨ next_value name items = Raise StopIteration.
Proof.
  induction 1 as [|item rest (kvs & n & w & -> & En & Ev) _ IH]; [by right|].
  simpl. rewrite En. simpl. destruct (py_eq_str n name); [|done].
  left. exists w. by rewrite Ev.
Qed.

Lemma next_named_Ok name v x :
  next_named name v = Ok x ↔ ∃ items, v = JArr items ∧ first_named name items x.
Proof.
  split.
  - destruct v as [| | | | s |xs|kvs]; simpl; try discriminate.
    + unfold next_named. simpl.
      destruct (String.list_ascii_of_string s); simpl; discriminate.
    + intros E. exists xs. split; [done|]. by apply next_value_Ok.
    + unfold next_named. simpl. destruct kvs; simpl; discriminate.
  - intros (items & -> & Hx). by apply next_value_first_named.
Qed.

(** ** The stages of the handler *)

Lemma try_body_stages req red :
  try_body req red =
  match read_callback req with
  | Raise e => (red, Raise e)
  | Ok (stk, mid, cid, rc, rd) =>
      if py_eq_zero rc then
        match read_metadata stk with
        | Raise e => (red, Raise e)
        | Ok (amount, receipt, date, phone) =>
            (redis_set (receipt_key cid)
               (json_dumps (success_record mid cid rc rd amount receipt date phone)) red,
             new_PaymentConfirmation receipt true rd)
        end
      else
        (redis_set (receipt_key cid) (json_dumps (failure_record mid cid rc rd)) red,
         Raise (HTTPException_400 rd))
  end.
Proof.
  unfold try_body, read_callback, read_metadata.
  unfold mbind, Py_bind, result_bind, pure, raise, red_set.
  destruct (getitem req "Body") as [Body|]; cbn; [|done].
  destruct (getitem Body "stkCallback") as [stk|]; cbn; [|done].
  destruct (getitem stk "MerchantRequestID") as [mid|]; cbn; [|done].
  destruct (getitem stk "CheckoutRequestID") as [cid|]; cbn; [|done].
  destruct (getitem stk "ResultCode") as [rc|]; cbn; [|done].
  destruct (getitem stk "ResultDesc") as [rd|]; cbn; [|done].
  destruct (py_eq_zero rc) eqn:Erc; cbn; [|done].
  destruct (getitem stk "CallbackMetadata") as [meta|]; cbn; [|done].
  destruct (getitem meta "Item") as [Item|]; cbn; [|done].
  destruct (next_named "Amount" Item) as [amount|]; cbn; [|done].
  destruct (next_named "MpesaReceiptNumber" Item) as [receipt|]; cbn; [|done].
  destruct (next_named "TransactionDate" Item) as [date|]; cbn; [|done].
  destruct (next_named "PhoneNumber" Item) as [phone|]; cbn; [|done].
  reflexivity.
Qed.

Lemma read_callback_Ok req s mid cid rc rd :
  read_callback req = Ok (s, mid, cid, rc, rd) ↔
  ∃ stk, s = JObj stk ∧ callback_envelope req stk mid cid rc rd.
Proof.
  unfold read_callback, mbind, result_bind. split.
  - destruct (getitem req "Body") as [Body|] eqn:E1; [|done].
    destruct (getitem Body "stkCallback") as [stk|] eqn:E2; [|done].
    destruct (getitem stk "MerchantRequestID") as [mid'|] eqn:E3; [|done].
    destruct (getitem stk "CheckoutRequestID") as [cid'|] eqn:E4; [|done].
    destruct (getitem stk "ResultCode") as [rc'|] eqn:E5; [|done].
    destruct (getitem stk "ResultDesc") as [rd'|] eqn:E6; [|done].
    intros [=]; subst.
    apply getitem_Ok in E1 as (top & -> & E1).
    apply getitem_Ok in E2 as (body & -> & E2).
    apply getitem_Ok in E3 as (kvs & -> & E3).
    apply getitem_Ok in E4 as (? & [= <-] & E4).
    apply getitem_Ok in E5 as (? & [= <-] & E5).
    apply getitem_Ok in E6 as (? & [= <-] & E6).
    exists kvs. split; [done|]. by apply (envelope_intro top body).
  - intros (stk & -> & Henv). destruct Henv as [top body stk mid cid rc rd E1 E2 E3 E4 E5 E6].
    simpl. rewrite E1. simpl. rewrite E2. simpl. by rewrite E3, E4, E5, E6.
Qed.

Lemma read_metadata_Ok stk amount receipt date phone :
  read_metadata (JObj stk) = Ok (amount, receipt, date, phone) ↔
  ∃ items, callback_metadata stk items ∧
    first_named "Amount" items amount ∧
    first_named "MpesaReceiptNumber" items receipt ∧
    first_named "TransactionDate" items date ∧
    first_named "PhoneNumber" items phone.
Proof.
  unfold read_metadata, mbind, result_bind. split.
  - destruct (getitem (JObj stk) "CallbackMetadata") as [meta|] eqn:E1; [|done].
    destruct (getitem meta "Item") as [Item|] eqn:E2; [|done].
    destruct (next_named "Amount" Item) as [a|] eqn:E3; [|done].
    destruct (next_named "MpesaReceiptNumber" Item) as [r|] eqn:E4; [|done].
    destruct (next_named "TransactionDate" Item) as [d|] eqn:E5; [|done].
    destruct (next_named "PhoneNumber" Item) as [p|] eqn:E6; [|done].
    intros [=]; subst.
    apply getitem_Ok in E1 as (? & [= <-] & E1).
    apply getitem_Ok in E2 as (m & -> & E2).
    apply next_named_Ok in E3 as (items & -> & E3).
    apply next_named_Ok in E4 as (? & [= <-] & E4).
    apply next_named_Ok in E5 as (? & [= <-] & E5).
    apply next_named_Ok in E6 as (? & [= <-] & E6).
    exists items. split; [by apply (metadata_intro stk items m)|done].
  - intros (items & [meta E1 E2] & Ha & Hr & Hd & Hp).
    simpl. rewrite E1. simpl. rewrite E2. simpl.
    unfold next_named. simpl.
    rewrite (next_value_first_named _ _ _ Ha). simpl.
    rewrite (next_value_first_named _ _ _ Hr). simpl.
    rewrite (next_value_first_named _ _ _ Hd). simpl.
    by rewrite (next_value_first_named _ _ _ Hp).
Qed.

Lemma read_callback_envelope req stk mid cid rc rd :
  callback_envelope req stk mid cid rc rd →
  read_callback req = Ok (JObj stk, mid, cid, rc, rd).
Proof. intros Henv. apply read_callback_Ok. eauto. Qed.

Lemma callback_envelope_functional req stk mid cid rc rd stk' mid' cid' rc' rd' :
  callback_envelope req stk mid cid rc rd →
  callback_envelope req stk' mid' cid' rc' rd' →
  stk' = stk ∧ mid' = mid ∧ cid' = cid ∧ rc' = rc ∧ rd' = rd.
Proof.
  intros E E'. apply read_callback_envelope in E, E'.
  rewrite E in E'. by injection E' as <- <- <- <- <-.
Qed.

Lemma read_metadata_absent stk items name :
  callback_metadata stk items →
  Forall entry_pair items →
  name ∈ metadata_names →
  Forall (entry_other name) items →
  read_metadata (JObj stk) = Raise StopIteration.
Proof.
  intros [meta E1 E2] Hpairs Hname Habsent.
  apply next_value_absent in Habsent.
  unfold read_metadata, mbind, result_bind, next_named. simpl.
  rewrite E1. simpl. rewrite E2. simpl.
  destruct (next_value_pairs "Amount" items Hpairs) as [[a Ea]| ->]; [|done].
  destruct (next_value_pairs "MpesaReceiptNumber" items Hpairs) as [[r Er]|Er];
    rewrite Ea, Er; [|done].
  destruct (next_value_pairs "TransactionDate" items Hpairs) as [[d Ed]|Ed];
    rewrite Ed; [|done].
  destruct (next_value_pairs "PhoneNumber" items Hpairs) as [[p Ep]|Ep];
    rewrite Ep; [|done].
  unfold metadata_names in Hname.
  repeat (apply elem_of_cons in Hname as [->|Hname]; [congruence|]).
  by apply elem_of_nil in Hname.
Qed.

(** ** The handler on each path *)

Lemma handler_try_body req red :
  c2b_mpesa_confirmation_resource req red =
  ((try_body req red).1, coroutine_exit (except_KeyError (try_body req red).2)).
Proof. unfold c2b_mpesa_confirmation_resource. by destruct (try_body req red). Qed.

Lemma new_PaymentConfirmation_escapes rid ok errs :
  coroutine_exit (except_KeyError (new_PaymentConfirmation rid ok errs)) =
  new_PaymentConfirmation rid ok errs.
Proof.
  unfold new_PaymentConfirmation, mbind, result_bind, validate_optional_str.
  destruct rid, errs; simpl; repeat (destruct (coerce_str _); simpl); reflexivity.
Qed.

Lemma handler_failure_path req stk mid cid rc rd red :
  callback_envelope req stk mid cid rc rd →
  py_eq_zero rc = false →
  c2b_mpesa_confirmation_resource req red =
  (redis_set (receipt_key cid) (json_dumps (failure_record mid cid rc rd)) red,
   Raise (HTTPException_400 rd)).
Proof.
  intros Henv Hrc. rewrite handler_try_body, try_body_stages.
  by rewrite (read_callback_envelope _ _ _ _ _ _ Henv), Hrc.
Qed.

Lemma handler_success_path req stk mid cid rc rd items amount receipt date phone red :
  callback_envelope req stk mid cid rc rd →
  py_eq_zero rc = true →
  callback_metadata stk items →
  first_named "Amount" items amount →
  first_named "MpesaReceiptNumber" items receipt →
  first_named "TransactionDate" items date →
  first_named "PhoneNumber" items phone →
  c2b_mpesa_confirmation_resource req red =
  (redis_set (receipt_key cid)
     (json_dumps (success_record mid cid rc rd amount receipt date phone)) red,
   new_PaymentConfirmation receipt true rd).
Proof.
  intros Henv Hrc Hmeta Ha Hr Hd Hp. rewrite handler_try_body, try_body_stages.
  rewrite (read_callback_envelope _ _ _ _ _ _ Henv), Hrc.
  assert (read_metadata (JObj stk) = Ok (amount, receipt, date, phone)) as ->
    by (apply read_metadata_Ok; eauto 10).
  simpl. by rewrite new_PaymentConfirmation_escapes.
Qed.

Lemma handler_persists req cid record red :
  receipt_of req cid record →
  (c2b_mpesa_confirmation_resource req red).1 =
  redis_set (receipt_key cid) (json_dumps record) red.
Proof.
  intros [stk mid c rc rd items a r d p Henv Hrc Hmeta Ha Hr Hd Hp
         |stk mid c rc rd Henv Hrc].
  - by erewrite handler_success_path.
  - by erewrite handler_failure_path.
Qed.

Lemma handler_skips req red :
  (∃ cid record, receipt_of req cid record) ∨
  (¬ (∃ cid record, receipt_of req cid record) ∧
   (c2b_mpesa_confirmation_resource req red).1 = red).
Proof.
  rewrite handler_try_body, try_body_stages.
  destruct (read_callback req) as [[[[[s mid] cid] rc] rd]|e] eqn:Eread.
  - apply read_callback_Ok in Eread as (stk & -> & Henv).
    destruct (py_eq_zero rc) eqn:Hrc.
    + destruct (read_metadata (JObj stk)) as [[[[a r] d] p]|e] eqn:Emeta.
      * apply read_metadata_Ok in Emeta as (items & Hmeta & Ha & Hr & Hd & Hp).
        left. eexists _, _. by eapply success_path.
      * right. split; [|done]. intros (cid' & record & Hrec).
        destruct Hrec as [stk' mid' c' rc' rd' items a r d p Henv' Hrc' Hmeta Ha Hr Hd Hp
                         |stk' mid' c' rc' rd' Henv' Hrc'];
          destruct (callback_envelope_functional _ _ _ _ _ _ _ _ _ _ _ Henv Henv')
            as (-> & -> & -> & -> & ->); [|congruence].
        assert (read_metadata (JObj stk) = Ok (a, r, d, p)) as E
          by (apply read_metadata_Ok; eauto 10).
        congruence.
    + left. eexists _, _. by eapply failure_path.
  - right. split; [|done]. intros (cid' & record & Hrec).
    destruct Hrec as [stk' mid' c' rc' rd' items a r d p Henv' _ _ _ _ _ _
                     |stk' mid' c' rc' rd' Henv' _];
      apply read_callback_envelope in Henv'; congruence.
Qed.

End properties.

(** * The webhook's contract *)

Section contract.
Context `{PyRuntime}.

Implicit Types (req : json) (red : redis).

Lemma read_callback_missing req k :
  first_missing_key req k → read_callback req = Raise (KeyError k).
Proof.
  unfold read_callback, mbind, result_bind.
  intros [top E1|top body E1 E2|top body stk k' E1 E2 Hfind]; simpl.
  - by rewrite E1.
  - rewrite E1. simpl. by rewrite E2.
  - rewrite E1. simpl. rewrite E2. simpl.
    unfold stk_fields, has_key in Hfind. simpl in Hfind.
    destruct (assoc "MerchantRequestID" stk); simpl in *; [|congruence].
    destruct (assoc "CheckoutRequestID" stk); simpl in *; [|congruence].
    destruct (assoc "ResultCode" stk); simpl in *; [|congruence].
    destruct (assoc "ResultDesc" stk); simpl in *; congruence.
Qed.

(** C1, as the code behaves.  On the success path, when [Item] is a
    sequence of name/value entries none of which is named by one of
    "Amount", "MpesaReceiptNumber", "TransactionDate", "PhoneNumber", the
    [StopIteration] of [next] is not a [KeyError]: it leaves the handler
    as a [RuntimeError], the response is a server error and not a
    400-class one, and nothing is written to the store. *)
Theorem absent_metadata_name_escapes req stk mid cid rc rd items name red :
  callback_envelope req stk mid cid rc rd →
  py_eq_zero rc = true →
  callback_metadata stk items →
  Forall entry_pair items →
  name ∈ metadata_names →
  Forall (entry_other name) items →
  c2b_mpesa_confirmation_resource req red = (red, Raise RuntimeError) ∧
  http_status (c2b_mpesa_confirmation_resource req red).2 = 500 ∧
  ¬ client_error (http_status (c2b_mpesa_confirmation_resource req red).2).
Proof.
  intros Henv Hrc Hmeta Hpairs Hname Habsent.
  assert (c2b_mpesa_confirmation_resource req red = (red, Raise RuntimeError)) as ->.
  { rewrite handler_try_body, try_body_stages.
    rewrite (read_callback_envelope _ _ _ _ _ _ Henv), Hrc.
    by rewrite (read_metadata_absent _ _ _ Hmeta Hpairs Hname Habsent). }
  split; [done|]. split; [done|]. unfold client_error. simpl. lia.
Qed.

(** C2.  For a well-formed callback envelope, whose [CheckoutRequestID] and
    [ResultDesc] are strings and whose [ResultCode] is an integer other
    than 0, the handler writes the failure-shaped record (the four envelope
    fields and nothing from the metadata, whatever else [stkCallback]
    holds) under [receipt:<CheckoutRequestID>], and then raises the client
    error 400 whose detail is [ResultDesc]. *)
Theorem failure_callback_recorded_then_rejected req stk mid c n desc red :
  callback_envelope req stk mid (JStr c) (JInt n) (JStr desc) →
  n ≠ 0 →
  let record := failure_record mid (JStr c) (JInt n) (JStr desc) in
  c2b_mpesa_confirmation_resource req red =
    (redis_set ("receipt:" +:+ c) (json_dumps record) red,
     Raise (HTTPException 400 (JStr desc))) ∧
  db (c2b_mpesa_confirmation_resource req red).1 !! ("receipt:" +:+ c) =
    Some (json_dumps record) ∧
  client_error (http_status (c2b_mpesa_confirmation_resource req red).2).
Proof.
  intros Henv Hn record.
  rewrite (handler_failure_path _ _ _ _ _ _ red Henv)
    by (by apply Z.eqb_neq).
  split; [done|]. split.
  - simpl. apply lookup_insert_eq.
  - unfold client_error. simpl. lia.
Qed.

(** C3.  For a success-shaped callback envelope ([ResultCode == 0], each
    of the four metadata names present in [CallbackMetadata.Item]), the
    record kept under [receipt:<CheckoutRequestID>] is the encoding of the
    success record whose [Amount], [MpesaReceiptNumber], [TransactionDate]
    and [PhoneNumber] are the very values found in [Item]. *)
Theorem success_record_keeps_metadata_values
    req stk mid c rc rd items amount receipt date phone red :
  callback_envelope req stk mid (JStr c) rc rd →
  py_eq_zero rc = true →
  callback_metadata stk items →
  first_named "Amount" items amount →
  first_named "MpesaReceiptNumber" items receipt →
  first_named "TransactionDate" items date →
  first_named "PhoneNumber" items phone →
  let record := success_record mid (JStr c) rc rd amount receipt date phone in
  db (c2b_mpesa_confirmation_resource req red).1 !! ("receipt:" +:+ c) =
    Some (json_dumps record) ∧
  getitem record "Amount" = Ok amount ∧
  getitem record "MpesaReceiptNumber" = Ok receipt ∧
  getitem record "TransactionDate" = Ok date ∧
  getitem record "PhoneNumber" = Ok phone.
Proof.
  intros Henv Hrc Hmeta Ha Hr Hd Hp record.
  rewrite (handler_success_path _ _ _ _ _ _ _ _ _ _ _ red Henv Hrc Hmeta Ha Hr Hd Hp).
  split; [|done]. simpl. apply lookup_insert_eq.
Qed.

(** C4, amended.  When the payload, its [Body] and the [stkCallback]
    inside are objects as far as they are present, and one of the keys
    [Body], [stkCallback], [MerchantRequestID], [CheckoutRequestID],
    [ResultCode], [ResultDesc] is absent from the object it is looked up
    in, the handler raises the client error 400 whose detail is
    "Missing required field: '<key>'" for the first such key in lookup
    order, and the store is left as it was. *)
Theorem missing_key_is_rejected req k red :
  first_missing_key req k →
  c2b_mpesa_confirmation_resource req red =
    (red, Raise (HTTPException 400
                   (JStr ("Missing required field: '" +:+ k +:+ "'")))) ∧
  client_error (http_status (c2b_mpesa_confirmation_resource req red).2).
Proof.
  intros Hmiss.
  assert (c2b_mpesa_confirmation_resource req red =
          (red, Raise (HTTPException 400
                         (JStr ("Missing required field: '" +:+ k +:+ "'"))))) as ->.
  { rewrite handler_try_body, try_body_stages.
    by rewrite (read_callback_missing _ _ Hmiss). }
  split; [done|]. unfold client_error. simpl. lia.
Qed.

(** C5.  When [CallbackMetadata.Item] holds two entries with the same
    [Name], and no entry before the first of them has that name, the
    value extracted for the name is the [Value] of the first of the two,
    whatever the second and the entries between and after them hold. *)
Theorem first_of_repeated_name_wins name pre kvs1 between kvs2 post v1 :
  Forall (entry_other name) pre →
  assoc "Name" kvs1 = Some (JStr name) →
  assoc "Value" kvs1 = Some v1 →
  assoc "Name" kvs2 = Some (JStr name) →
  next_named name (JArr (pre ++ JObj kvs1 :: between ++ JObj kvs2 :: post)) = Ok v1.
Proof.
  intros Hpre En Ev _. apply next_named_Ok. eexists. split; [done|].
  by apply first_named_intro.
Qed.

(** C6.  When two invocations that reach the store carry the same
    [CheckoutRequestID], the second overwrites what the first stored:
    after the first, the key [receipt:<CheckoutRequestID>] gives the first
    record; after both it gives the second, the store is what the second
    alone would have left, and both writes were issued (no deduplication). *)
Theorem later_receipt_overwrites req1 req2 cid record1 record2 red :
  receipt_of req1 cid record1 →
  receipt_of req2 cid record2 →
  let red1 := (c2b_mpesa_confirmation_resource req1 red).1 in
  let red2 := (c2b_mpesa_confirmation_resource req2 red1).1 in
  db red1 !! receipt_key cid = Some (json_dumps record1) ∧
  db red2 !! receipt_key cid = Some (json_dumps record2) ∧
  db red2 = db (c2b_mpesa_confirmation_resource req2 red).1 ∧
  set_calls red2 =
    (set_calls red ++ [(receipt_key cid, json_dumps record1);
                       (receipt_key cid, json_dumps record2)])%list.
Proof.
  intros H1 H2 red1 red2. subst red1 red2.
  rewrite !(handler_persists _ _ _ _ H2), (handler_persists _ _ _ _ H1). simpl.
  rewrite !lookup_insert_eq, insert_insert_eq, <- app_assoc. done.
Qed.

(** C7.  For a valid success-shaped callback envelope ([ResultCode == 0],
    the four metadata names present, [MpesaReceiptNumber] and [ResultDesc]
    strings), the handler returns, without error, the confirmation whose
    [receipt_id] is the extracted [MpesaReceiptNumber], whose [success] is
    true and whose [errors] is [ResultDesc]. *)
Theorem success_callback_is_confirmed
    req stk mid cid rc desc items amount receipt date phone red :
  callback_envelope req stk mid cid rc (JStr desc) →
  py_eq_zero rc = true →
  callback_metadata stk items →
  first_named "Amount" items amount →
  first_named "MpesaReceiptNumber" items (JStr receipt) →
  first_named "TransactionDate" items date →
  first_named "PhoneNumber" items phone →
  (c2b_mpesa_confirmation_resource req red).2 =
    Ok {| receipt_id := Some receipt; success := true; errors := Some desc |} ∧
  http_status (c2b_mpesa_confirmation_resource req red).2 = 200.
Proof.
  intros Henv Hrc Hmeta Ha Hr Hd Hp.
  by rewrite (handler_success_path _ _ _ _ _ _ _ _ _ _ _ red Henv Hrc Hmeta Ha Hr Hd Hp).
Qed.

(** C8.  An invocation that takes the success path or the
    result-code-failure path through to the store issues exactly one
    [SET], to the key [receipt:<CheckoutRequestID>] of its envelope, and
    every other key keeps its value; any other invocation issues none and
    leaves the store as it was. *)
Theorem one_write_to_the_receipt_key req red :
  let red' := (c2b_mpesa_confirmation_resource req red).1 in
  (∃ cid record,
     receipt_of req cid record ∧
     set_calls red' = (set_calls red ++ [(receipt_key cid, json_dumps record)])%list ∧
     db red' = <[receipt_key cid := json_dumps record]> (db red) ∧
     ∀ k, k ≠ receipt_key cid → db red' !! k = db red !! k) ∨
  (¬ (∃ cid record, receipt_of req cid record) ∧
   set_calls red' = set_calls red ∧
   db red' = db red).
Proof.
  intros red'. subst red'.
  destruct (handler_skips req red) as [(cid & record & Hrec)|[Hnone ->]].
  - left. exists cid, record. rewrite (handler_persists _ _ _ _ Hrec). simpl.
    repeat split; [done|]. intros k Hk. by apply lookup_insert_ne.
  - right. done.
Qed.

(** C9.  For a request body that is not a JSON object ([null] when the
    body is absent, an array, a string, a number, a boolean), the first
    subscript raises [TypeError]; the handler's [except KeyError] does not
    catch it, so the response is a server error and not a 400-class one,
    and the store is left as it was. *)
Theorem non_object_body_is_a_server_error req red :
  is_object req = false →
  c2b_mpesa_confirmation_resource req red = (red, Raise TypeError) ∧
  http_status (c2b_mpesa_confirmation_resource req red).2 = 500 ∧
  ¬ client_error (http_status (c2b_mpesa_confirmation_resource req red).2).
Proof.
  intros Hreq.
  assert (c2b_mpesa_confirmation_resource req red = (red, Raise TypeError)) as ->
    by (destruct req; done).
  split; [done|]. split; [done|]. unfold client_error. simpl. lia.
Qed.

(** C10, amended.  The branch is decided by Python's [ResultCode == 0]:
    for every envelope whose [ResultCode] is neither the integer 0, nor
    the boolean [false], nor a float equal to zero (so for the string "0",
    [null], [true], any other number, an array or an object), the handler
    takes the failure path: it persists the failure-shaped record and
    raises the error 400 whose detail is [ResultDesc], or the phrase
    "Bad Request" when [ResultDesc] is [null].  The response has status 400
    whenever [ResultDesc] holds no [NaN] and no infinity; when it does,
    the error cannot be rendered and the status is 500. *)
Theorem result_code_unequal_to_zero_fails req stk mid cid rc rd red :
  callback_envelope req stk mid cid rc rd →
  rc ≠ JInt 0 →
  rc ≠ JBool false →
  (∀ f, rc = JFloat f → PrimFloat.eqb f PrimFloat.zero = false) →
  c2b_mpesa_confirmation_resource req red =
    (redis_set (receipt_key cid) (json_dumps (failure_record mid cid rc rd)) red,
     Raise (HTTPException 400
              (match rd with
               | JNull => JStr "Bad Request"
               | _ => rd
               end))) ∧
  http_status (c2b_mpesa_confirmation_resource req red).2 =
    (if json_finite rd then 400 else 500).
Proof.
  intros Henv Hint Hbool Hfloat.
  assert (py_eq_zero rc = false) as Hrc.
  { destruct rc as [|[]|n|f| | |]; simpl; try done.
    - apply Z.eqb_neq. congruence.
    - by apply Hfloat. }
  rewrite (handler_failure_path _ _ _ _ _ _ red Henv Hrc).
  split; [done|]. by destruct rd.
Qed.

End contract.

(** * Further properties of the handler *)

Section further.
Context `{PyRuntime}.

Implicit Types (req v item : json) (red : redis) (name k : string) (e : exn).

(** ** What each stage can raise *)

Lemma getitem_Raise v k e :
  getitem v k = Raise e → e = TypeError ∨ e = KeyError k.
Proof.
  destruct v as [| | | | | |kvs]; simpl; try (intros [= <-]; by left).
  destruct (assoc k kvs); intros [= <-]. by right.
Qed.

Lemma next_value_Raise name items e :
  next_value name items = Raise e →
  e = StopIteration ∨ e = TypeError ∨ e = KeyError "Name" ∨ e = KeyError "Value".
Proof.
  induction items as [|item rest IH]; simpl; [intros [= <-]; by left|].
  unfold mbind, result_bind.
  destruct (getitem item "Name") as [n|e'] eqn:En.
  - destruct (py_eq_str n name); [|done].
    intros [->| ->]%getitem_Raise; auto.
  - intros [= <-]. apply getitem_Raise in En as [->| ->]; auto.
Qed.

Lemma next_named_Raise name v e :
  next_named name v = Raise e →
  e = StopIteration ∨ e = TypeError ∨ e = KeyError "Name" ∨ e = KeyError "Value".
Proof.
  unfold next_named, mbind, result_bind.
  destruct (py_iter v) as [items|e'] eqn:Ev.
  - apply next_value_Raise.
  - intros [= <-]. destruct v; simpl in Ev; try discriminate; injection Ev as <-; auto.
Qed.

Lemma read_callback_Raise req e :
  read_callback req = Raise e →
  e = TypeError ∨ ∃ k, k ∈ lookup_keys ∧ e = KeyError k.
Proof.
  unfold read_callback, mbind, result_bind, lookup_keys.
  repeat
    match goal with
    | |- context [match getitem ?v ?k with _ => _ end] =>
        let E := fresh "E" in
        destruct (getitem v k) eqn:E;
        [|intros [= <-]; apply getitem_Raise in E as [->| ->];
          [by left|right; eexists; split; [|done]; set_solver]]
    end.
  discriminate.
Qed.

Lemma read_metadata_Raise stk e :
  read_metadata stk = Raise e →
  e = TypeError ∨ e = StopIteration ∨ ∃ k, k ∈ lookup_keys ∧ e = KeyError k.
Proof.
  unfold read_metadata, mbind, result_bind, lookup_keys.
  repeat
    match goal with
    | |- context [match getitem ?v ?k with _ => _ end] =>
        let E := fresh "E" in
        destruct (getitem v k) eqn:E;
        [|intros [= <-]; apply getitem_Raise in E as [->| ->];
          [by left|right; right; eexists; split; [|done]; set_solver]]
    | |- context [match next_named ?n ?v with _ => _ end] =>
        let E := fresh "E" in
        destruct (next_named n v) eqn:E;
        [|intros [= <-]; apply next_named_Raise in E as [->|[->|[->| ->]]];
          [by right; left|by left
          |right; right; eexists; split; [|done]; set_solver
          |right; right; eexists; split; [|done]; set_solver]]
    end.
  discriminate.
Qed.

Lemma new_PaymentConfirmation_Raise rid ok errs e :
  new_PaymentConfirmation rid ok errs = Raise e → e = ValidationError.
Proof.
  unfold new_PaymentConfirmation, mbind, result_bind, validate_optional_str.
  destruct rid, errs; simpl; repeat (destruct (coerce_str _); simpl); congruence.
Qed.

Lemma new_PaymentConfirmation_Ok rid ok errs c :
  new_PaymentConfirmation rid ok errs = Ok c →
  validate_optional_str rid = Ok (receipt_id c) ∧
  success c = ok ∧
  validate_optional_str errs = Ok (errors c).
Proof.
  unfold new_PaymentConfirmation, mbind, result_bind.
  destruct (validate_optional_str rid); [|done].
  destruct (validate_optional_str errs); [|done].
  by intros [= <-].
Qed.

(** ** The five ways an invocation ends *)

Lemma handler_cases req red :
  handled req red (c2b_mpesa_confirmation_resource req red).
Proof.
  rewrite handler_try_body, try_body_stages.
  destruct (read_callback req) as [[[[[s mid] cid] rc] rd]|e] eqn:Eread.
  - apply read_callback_Ok in Eread as (stk & -> & Henv).
    destruct (py_eq_zero rc) eqn:Hrc; [|by eapply handled_failure].
    destruct (read_metadata (JObj stk)) as [[[[a r] d] p]|e] eqn:Emeta.
    + apply read_metadata_Ok in Emeta as (items & Hmeta & Ha & Hr & Hd & Hp).
      simpl. rewrite new_PaymentConfirmation_escapes. by eapply handled_success.
    + apply read_metadata_Raise in Emeta as [->|[->|(k & Hk & ->)]]; simpl.
      * apply handled_TypeError.
      * apply handled_RuntimeError.
      * by apply handled_missing.
  - apply read_callback_Raise in Eread as [->|(k & Hk & ->)]; simpl.
    + apply handled_TypeError.
    + by apply handled_missing.
Qed.

Lemma receipt_key_prefix cid : String.prefix "receipt:" (receipt_key cid) = true.
Proof. unfold receipt_key. simpl. by destruct (format_value cid). Qed.

Lemma receipt_key_inj c1 c2 : receipt_key (JStr c1) = receipt_key (JStr c2) → c1 = c2.
Proof. unfold receipt_key. simpl. by intros [=]. Qed.

Lemma handler_effect req :
  ∃ (sets : list (string * string)) out,
    (List.length sets ≤ 1)%nat ∧
    ∀ red,
      c2b_mpesa_confirmation_resource req red =
      (foldl (λ r kv, redis_set kv.1 kv.2 r) red sets, out).
Proof.
  destruct (read_callback req) as [[[[[s mid] cid] rc] rd]|e] eqn:Eread.
  - destruct (py_eq_zero rc) eqn:Hrc.
    + destruct (read_metadata s) as [[[[a r] d] p]|e] eqn:Emeta.
      * exists [(receipt_key cid,
                 json_dumps (success_record mid cid rc rd a r d p))],
               (new_PaymentConfirmation r true rd).
        split; [simpl; lia|]. intros red.
        rewrite handler_try_body, try_body_stages, Eread, Hrc, Emeta. simpl.
        by rewrite new_PaymentConfirmation_escapes.
      * exists [], (coroutine_exit (except_KeyError (Raise e))).
        split; [simpl; lia|]. intros red.
        by rewrite handler_try_body, try_body_stages, Eread, Hrc, Emeta.
    + exists [(receipt_key cid, json_dumps (failure_record mid cid rc rd))],
             (Raise (HTTPException_400 rd)).
      split; [simpl; lia|]. intros red.
      by rewrite handler_try_body, try_body_stages, Eread, Hrc.
  - exists [], (coroutine_exit (except_KeyError (Raise e))).
    split; [simpl; lia|]. intros red.
    by rewrite handler_try_body, try_body_stages, Eread.
Qed.

(** ** What a response tells about the store *)

(** X1.  A confirmation is only returned after the record has been written:
    when the handler returns, the envelope is success-shaped, [success] is
    true, [receipt_id] and [errors] are the validated [MpesaReceiptNumber]
    and [ResultDesc], and the success record is under the receipt key. *)
Theorem confirmation_means_persisted req red c :
  (c2b_mpesa_confirmation_resource req red).2 = Ok c →
  success c = true ∧
  ∃ stk mid cid rc rd items amount receipt date phone,
    callback_envelope req stk mid cid rc rd ∧
    py_eq_zero rc = true ∧
    callback_metadata stk items ∧
    first_named "Amount" items amount ∧
    first_named "MpesaReceiptNumber" items receipt ∧
    first_named "TransactionDate" items date ∧
    first_named "PhoneNumber" items phone ∧
    validate_optional_str receipt = Ok (receipt_id c) ∧
    validate_optional_str rd = Ok (errors c) ∧
    db (c2b_mpesa_confirmation_resource req red).1 !! receipt_key cid =
      Some (json_dumps (success_record mid cid rc rd amount receipt date phone)).
Proof.
  destruct (handler_cases req red)
    as [| | |
        |stk mid cid rc rd items a r d p Henv Hrc Hmeta Ha Hr Hd Hp];
    simpl; try discriminate.
  intros (Hrid & Hok & Herrs)%new_PaymentConfirmation_Ok. split; [done|].
  exists stk, mid, cid, rc, rd, items, a, r, d, p.
  repeat (split; [done|]). apply lookup_insert_eq.
Qed.

(** X2.  Whatever the request: a confirmation the handler returns has
    [success] true, never false; an [HTTPException] it raises has status
    400; and neither a [KeyError] nor a [StopIteration] leaves it. *)
Theorem handler_response_kinds req red :
  match (c2b_mpesa_confirmation_resource req red).2 with
  | Ok c => success c = true
  | Raise (HTTPException status _) => status = 400
  | Raise (KeyError _) | Raise StopIteration => False
  | Raise _ => True
  end.
Proof.
  destruct (handler_cases req red)
    as [| | |
        |stk mid cid rc rd items a r d p Henv Hrc Hmeta Ha Hr Hd Hp];
    simpl; try done.
  destruct (new_PaymentConfirmation r true rd) as [c|e] eqn:E.
  - by apply new_PaymentConfirmation_Ok in E as (_ & -> & _).
  - by apply new_PaymentConfirmation_Raise in E as ->.
Qed.

(** X3.  An [HTTPException] comes with status 400 and for one of two
    reasons: the provider reported a failure, and then the failure record
    has been written and the detail is the envelope's [ResultDesc], or the
    phrase "Bad Request" when [ResultDesc] is [null]; or a key was missing,
    and then the detail names one of the ten keys the handler subscripts
    with and the store is untouched. *)
Theorem rejection_is_failure_or_missing_key req red status detail :
  (c2b_mpesa_confirmation_resource req red).2 = Raise (HTTPException status detail) →
  status = 400 ∧
  ((∃ stk mid cid rc rd,
      callback_envelope req stk mid cid rc rd ∧
      py_eq_zero rc = false ∧
      detail = match rd with
               | JNull => JStr "Bad Request"
               | _ => rd
               end ∧
      (c2b_mpesa_confirmation_resource req red).1 =
        redis_set (receipt_key cid)
          (json_dumps (failure_record mid cid rc rd)) red) ∨
   (∃ k, k ∈ lookup_keys ∧
      detail = missing_field_detail k ∧
      (c2b_mpesa_confirmation_resource req red).1 = red)).
Proof.
  destruct (handler_cases req red)
    as [| |k Hk|stk mid cid rc rd Henv Hrc
        |stk mid cid rc rd items a r d p Henv Hrc Hmeta Ha Hr Hd Hp];
    simpl; try discriminate.
  - intros [= <- <-]. split; [done|]. right. by exists k.
  - intros [= <- <-]. split; [done|]. left. by exists stk, mid, cid, rc, rd.
  - intros E. by apply new_PaymentConfirmation_Raise in E.
Qed.

(** ** Replays and neighbours *)

(** X4.  The handler never reads the store: processing the same request a
    second time gives the same outcome and leaves the database as the first
    time did, while the [SET], if there is one, is issued again. *)
Theorem replay_is_idempotent req red :
  let once := c2b_mpesa_confirmation_resource req red in
  let twice := c2b_mpesa_confirmation_resource req once.1 in
  twice.2 = once.2 ∧
  db twice.1 = db once.1 ∧
  ∃ sets,
    (List.length sets ≤ 1)%nat ∧
    set_calls once.1 = (set_calls red ++ sets)%list ∧
    set_calls twice.1 = (set_calls red ++ sets ++ sets)%list.
Proof.
  intros once twice. subst once twice.
  destruct (handler_effect req) as (sets & out & Hlen & Heq).
  rewrite !Heq. simpl. split; [done|].
  destruct sets as [|[k text] [|? ?]]; simpl in *; [| |lia].
  - split; [done|]. exists []. by rewrite !app_nil_r.
  - split; [apply insert_insert_eq|]. exists [(k, text)].
    by rewrite <- app_assoc.
Qed.

(** X5.  Records of requests with different [CheckoutRequestID] strings do
    not disturb one another: after both invocations each record is under
    its own key, and the database is the same in either order. *)
Theorem distinct_receipts_coexist req1 req2 c1 c2 record1 record2 red :
  receipt_of req1 (JStr c1) record1 →
  receipt_of req2 (JStr c2) record2 →
  c1 ≠ c2 →
  let red12 :=
    (c2b_mpesa_confirmation_resource req2
       (c2b_mpesa_confirmation_resource req1 red).1).1 in
  let red21 :=
    (c2b_mpesa_confirmation_resource req1
       (c2b_mpesa_confirmation_resource req2 red).1).1 in
  db red12 !! ("receipt:" +:+ c1) = Some (json_dumps record1) ∧
  db red12 !! ("receipt:" +:+ c2) = Some (json_dumps record2) ∧
  db red12 = db red21.
Proof.
  intros H1 H2 Hne red12 red21. subst red12 red21.
  rewrite !(handler_persists _ _ _ _ H1), !(handler_persists _ _ _ _ H2). simpl.
  assert (receipt_key (JStr c2) ≠ receipt_key (JStr c1)) as Hkeys
    by (intros E; by apply receipt_key_inj in E).
  change ("receipt:" +:+ c1) with (receipt_key (JStr c1)).
  change ("receipt:" +:+ c2) with (receipt_key (JStr c2)).
  split; [by rewrite lookup_insert_ne, lookup_insert_eq|].
  split; [by rewrite lookup_insert_eq|].
  by apply insert_insert_ne.
Qed.

(** X6.  The handler stays within the [receipt:] keys: a key that does not
    start with that prefix keeps the value it had, and no key that was
    present is ever removed. *)
Theorem only_receipt_keys_are_written req red :
  (∀ k, String.prefix "receipt:" k = false →
        db (c2b_mpesa_confirmation_resource req red).1 !! k = db red !! k) ∧
  (∀ k, is_Some (db red !! k) →
        is_Some (db (c2b_mpesa_confirmation_resource req red).1 !! k)).
Proof.
  destruct (handler_skips req red) as [(cid & record & Hrec)|[_ ->]]; [|done].
  rewrite (handler_persists _ _ _ _ Hrec). simpl. split.
  - intros k Hk. apply lookup_insert_ne. intros <-.
    by rewrite receipt_key_prefix in Hk.
  - intros k Hk. destruct (decide (receipt_key cid = k)) as [<-|Hne].
    + by rewrite lookup_insert_eq.
    + by rewrite lookup_insert_ne.
Qed.

(** ** The success branch before the write *)

(** X7.  On the success branch, an [stkCallback] without [CallbackMetadata],
    or a [CallbackMetadata] object without [Item], is answered with the
    client error 400 naming that key, and nothing is written. *)
Theorem missing_metadata_container_is_rejected req stk mid cid rc rd k red :
  callback_envelope req stk mid cid rc rd →
  py_eq_zero rc = true →
  (assoc "CallbackMetadata" stk = None ∧ k = "CallbackMetadata") ∨
  (∃ meta, assoc "CallbackMetadata" stk = Some (JObj meta) ∧
           assoc "Item" meta = None ∧ k = "Item") →
  c2b_mpesa_confirmation_resource req red =
    (red, Raise (HTTPException 400 (missing_field_detail k))).
Proof.
  intros Henv Hrc Hk. rewrite handler_try_body, try_body_stages.
  rewrite (read_callback_envelope _ _ _ _ _ _ Henv), Hrc.
  unfold read_metadata, mbind, result_bind. simpl.
  destruct Hk as [[E ->]|(meta & E1 & E2 & ->)].
  - by rewrite E.
  - rewrite E1. simpl. by rewrite E2.
Qed.

(** X8.  On the success branch, an [Item] that is not a list is a server
    error and nothing is written: iterating [null], a boolean or a number
    raises [TypeError], so does subscripting the first key of a dict or the
    first character of a string, and an empty dict or string runs [next] into
    [StopIteration], which leaves the coroutine as [RuntimeError]. *)
Theorem non_sequence_Item_is_a_server_error req stk mid cid rc rd meta v red :
  callback_envelope req stk mid cid rc rd →
  py_eq_zero rc = true →
  assoc "CallbackMetadata" stk = Some (JObj meta) →
  assoc "Item" meta = Some v →
  is_array v = false →
  c2b_mpesa_confirmation_resource req red =
    (red, Raise (match v with
                 | JObj [] | JStr EmptyString => RuntimeError
                 | _ => TypeError
                 end)) ∧
  http_status (c2b_mpesa_confirmation_resource req red).2 = 500.
Proof.
  intros Henv Hrc E1 E2 Hv.
  rewrite handler_try_body, try_body_stages.
  rewrite (read_callback_envelope _ _ _ _ _ _ Henv), Hrc.
  unfold read_metadata, mbind, result_bind. simpl.
  rewrite E1. simpl. rewrite E2. unfold next_named, mbind, result_bind.
  destruct v as [| | | |s|xs|kvs]; simpl; try done.
  - by destruct s.
  - by destruct kvs as [|[k x] kvs].
Qed.

(** ** Extraction from [Item] *)

Lemma next_value_StopIteration name items :
  next_value name items = Raise StopIteration → Forall (entry_other name) items.
Proof.
  induction items as [|item rest IH]; simpl; [constructor|].
  unfold mbind, result_bind.
  destruct (getitem item "Name") as [n|e] eqn:En.
  - apply getitem_Ok in En as (kvs & -> & En).
    destruct (py_eq_str n name) eqn:E.
    + intros [[=]|[=]]%getitem_Raise.
    + intros Hrest. constructor; [|by apply IH].
      exists kvs, n. by rewrite <- py_eq_str_false.
  - intros [= ->]. by apply getitem_Raise in En as [[=]|[=]].
Qed.

Lemma next_value_skip name pre item post :
  entry_other name item →
  next_value name (pre ++ item :: post) = next_value name (pre ++ post).
Proof.
  intros Hitem. induction pre as [|x pre IH]; simpl.
  - by apply next_value_other.
  - unfold mbind, result_bind. destruct (getitem x "Name"); [|done].
    by destruct (py_eq_str _ name).
Qed.

(** X9.  The value extracted for a name is [x] exactly when [Item] is a
    list in which every entry before the first one named so is an object
    with another [Name], and that first one has the [Value] [x]. *)
Theorem extraction_succeeds_on_first_named name v x :
  next_named name v = Ok x ↔
  ∃ pre kvs post,
    v = JArr (pre ++ JObj kvs :: post) ∧
    Forall (entry_other name) pre ∧
    assoc "Name" kvs = Some (JStr name) ∧
    assoc "Value" kvs = Some x.
Proof.
  rewrite next_named_Ok. split.
  - intros (items & -> & [pre kvs post w Hpre En Ev]). by exists pre, kvs, post.
  - intros (pre & kvs & post & -> & Hpre & En & Ev).
    eexists. split; [done|]. by apply first_named_intro.
Qed.

(** X10.  Over a list, the extraction runs into [StopIteration] exactly
    when every entry is an object with a [Name] other than the one asked
    for; an empty list is the least such case. *)
Theorem extraction_exhausts_on_other_names name items :
  next_named name (JArr items) = Raise StopIteration ↔
  Forall (entry_other name) items.
Proof.
  split; [apply next_value_StopIteration|apply next_value_absent].
Qed.

(** X11.  Entries with another [Name] do not matter to the extraction,
    whether they have a [Value] or not and wherever they stand: with or
    without such an entry the result, value or exception, is the same. *)
Theorem other_entries_do_not_matter name pre item post :
  entry_other name item →
  next_named name (JArr (pre ++ item :: post)) = next_named name (JArr (pre ++ post)).
Proof. intros Hitem. by apply next_value_skip. Qed.

(** X12.  When the first entry that is not skipped is an object without a
    [Name], the extraction raises [KeyError('Name')]; when it has the name
    asked for but no [Value], it raises [KeyError('Value')]. *)
Theorem incomplete_entry_raises_KeyError name pre kvs post :
  Forall (entry_other name) pre →
  assoc "Name" kvs = None ∨
  (assoc "Name" kvs = Some (JStr name) ∧ assoc "Value" kvs = None) →
  next_named name (JArr (pre ++ JObj kvs :: post)) =
    Raise (KeyError (match assoc "Name" kvs with
                     | Some _ => "Value"
                     | None => "Name"
                     end)).
Proof.
  intros Hpre Hkvs. unfold next_named. simpl.
  induction Hpre as [|item pre Hitem _ IH]; simpl app.
  - simpl. unfold mbind, result_bind.
    destruct Hkvs as [->|[-> Ev]]; [done|].
    simpl. by rewrite String.eqb_refl, Ev.
  - by rewrite next_value_other.
Qed.

(** X13.  The four extractions run in the order "Amount",
    "MpesaReceiptNumber", "TransactionDate", "PhoneNumber", and the first
    one that raises decides the response: a [KeyError] becomes the client
    error 400 naming the key, a [StopIteration] a [RuntimeError], anything
    else escapes as it is; in each case nothing is written. *)
Theorem first_failed_extraction_decides
    req stk mid cid rc rd meta Item done name rest e red :
  callback_envelope req stk mid cid rc rd →
  py_eq_zero rc = true →
  assoc "CallbackMetadata" stk = Some (JObj meta) →
  assoc "Item" meta = Some Item →
  metadata_names = (done ++ name :: rest)%list →
  (∀ n, n ∈ done → ∃ x, next_named n Item = Ok x) →
  next_named name Item = Raise e →
  c2b_mpesa_confirmation_resource req red =
    (red, coroutine_exit (except_KeyError (Raise e))).
Proof.
  intros Henv Hrc E1 E2 Hnames Hdone He.
  rewrite handler_try_body, try_body_stages.
  rewrite (read_callback_envelope _ _ _ _ _ _ Henv), Hrc.
  assert (read_metadata (JObj stk) = Raise e) as ->; [|done].
  unfold read_metadata, mbind, result_bind. simpl.
  rewrite E1. simpl. rewrite E2.
  unfold metadata_names in Hnames.
  destruct done as [|n1 [|n2 [|n3 [|n4 done]]]]; simplify_eq/=.
  - by rewrite He.
  - destruct (Hdone "Amount") as [? ->]; [repeat constructor|]. by rewrite He.
  - destruct (Hdone "Amount") as [? ->]; [repeat constructor|].
    destruct (Hdone "MpesaReceiptNumber") as [? ->]; [repeat constructor|].
    by rewrite He.
  - destruct (Hdone "Amount") as [? ->]; [repeat constructor|].
    destruct (Hdone "MpesaReceiptNumber") as [? ->]; [repeat constructor|].
    destruct (Hdone "TransactionDate") as [? ->]; [repeat constructor|].
    by rewrite He.
  - by destruct done.
Qed.

(** ** The success branch after the write *)

(** X14.  The record is written before the confirmation is built: when
    the response model rejects [MpesaReceiptNumber] or [ResultDesc] (a value
    that is neither [None] nor a string and that the validation does not
    turn into one), the caller gets a server error although the success
    record is already under the receipt key. *)
Theorem rejected_confirmation_is_still_persisted
    req stk mid cid rc rd items amount receipt date phone red :
  callback_envelope req stk mid cid rc rd →
  py_eq_zero rc = true →
  callback_metadata stk items →
  first_named "Amount" items amount →
  first_named "MpesaReceiptNumber" items receipt →
  first_named "TransactionDate" items date →
  first_named "PhoneNumber" items phone →
  validate_optional_str receipt = Raise ValidationError ∨
  validate_optional_str rd = Raise ValidationError →
  (c2b_mpesa_confirmation_resource req red).2 = Raise ValidationError ∧
  http_status (c2b_mpesa_confirmation_resource req red).2 = 500 ∧
  db (c2b_mpesa_confirmation_resource req red).1 !! receipt_key cid =
    Some (json_dumps (success_record mid cid rc rd amount receipt date phone)).
Proof.
  intros Henv Hrc Hmeta Ha Hr Hd Hp Hbad.
  rewrite (handler_success_path _ _ _ _ _ _ _ _ _ _ _ red Henv Hrc Hmeta Ha Hr Hd Hp).
  simpl. destruct (new_PaymentConfirmation receipt true rd) as [c|e] eqn:E.
  - apply new_PaymentConfirmation_Ok in E as (E1 & _ & E2).
    destruct Hbad; congruence.
  - apply new_PaymentConfirmation_Raise in E as ->.
    repeat split. apply lookup_insert_eq.
Qed.

(** ** Keys and containers *)

(** X15.  The store is keyed by the text the f-string gives the
    [CheckoutRequestID], not by the value: two invocations whose ids are
    formatted alike write to the same key, and the second record replaces
    the first. *)
Theorem receipts_are_keyed_by_the_formatted_id
    req1 req2 cid1 cid2 record1 record2 red :
  receipt_of req1 cid1 record1 →
  receipt_of req2 cid2 record2 →
  format_value cid1 = format_value cid2 →
  let red1 := (c2b_mpesa_confirmation_resource req1 red).1 in
  let red2 := (c2b_mpesa_confirmation_resource req2 red1).1 in
  db red1 !! receipt_key cid1 = Some (json_dumps record1) ∧
  db red2 !! receipt_key cid1 = Some (json_dumps record2) ∧
  db red2 = db (c2b_mpesa_confirmation_resource req2 red).1.
Proof.
  intros H1 H2 Hfmt red1 red2. subst red1 red2.
  rewrite !(handler_persists _ _ _ _ H2), (handler_persists _ _ _ _ H1). simpl.
  assert (receipt_key cid2 = receipt_key cid1) as ->
    by (unfold receipt_key; by rewrite Hfmt).
  by rewrite !lookup_insert_eq, insert_insert_eq.
Qed.

(** X16.  A [Body] or an [stkCallback] that is present but is not an
    object makes the next subscript raise [TypeError]: the response is a
    server error, not the client error for a missing field, and nothing is
    written. *)
Theorem non_object_container_is_a_server_error top v red :
  assoc "Body" top = Some v ∨
  (∃ body, assoc "Body" top = Some (JObj body) ∧ assoc "stkCallback" body = Some v) →
  is_object v = false →
  c2b_mpesa_confirmation_resource (JObj top) red = (red, Raise TypeError) ∧
  http_status (c2b_mpesa_confirmation_resource (JObj top) red).2 = 500.
Proof.
  intros Hv Hobj.
  assert (read_callback (JObj top) = Raise TypeError) as Hread.
  { unfold read_callback, mbind, result_bind. simpl.
    destruct Hv as [E|(body & E1 & E2)].
    - rewrite E. by destruct v.
    - rewrite E1. simpl. rewrite E2. by destruct v. }
  by rewrite handler_try_body, try_body_stages, Hread.
Qed.

End further.

(** * The contract on sample callbacks *)

Import Sample.

Local Ltac envelope := unfold payload; econstructor; reflexivity.
Local Ltac metadata := econstructor; reflexivity.
Local Ltac first_entry := apply next_value_Ok; reflexivity.
Local Ltac entries :=
  repeat constructor; repeat eexists; first [reflexivity | discriminate].

(** The request of C1 that the handler answers with a server error: a paid
    callback whose [Item] has no entry named "PhoneNumber". *)
Lemma no_phone_callback_escapes :
  c2b_mpesa_confirmation_resource (payload no_phone_stk) empty_redis =
    (empty_redis, Raise RuntimeError) ∧
  http_status (c2b_mpesa_confirmation_resource (payload no_phone_stk) empty_redis).2 = 500 ∧
  ¬ client_error
      (http_status (c2b_mpesa_confirmation_resource (payload no_phone_stk) empty_redis).2).
Proof.
  apply (absent_metadata_name_escapes (payload no_phone_stk) no_phone_stk
           (JStr "29115-34620561-1") (JStr "ws_CO_191220191020363925") (JInt 0)
           (JStr "The service request is processed successfully.")
           (take 3 paid_items) "PhoneNumber").
  - envelope.
  - reflexivity.
  - metadata.
  - entries.
  - unfold metadata_names. repeat constructor.
  - entries.
Defined.

(** C2 on the declined callback: [ResultCode = 1], "Insufficient funds". *)
Lemma declined_callback_recorded_then_rejected :
  let record :=
    failure_record (JStr "29115-34620561-1") (JStr "ws_CO_191220191020363925")
      (JInt 1) (JStr "Insufficient funds") in
  c2b_mpesa_confirmation_resource (payload declined_stk) empty_redis =
    (redis_set "receipt:ws_CO_191220191020363925" (json_dumps record) empty_redis,
     Raise (HTTPException 400 (JStr "Insufficient funds"))) ∧
  db (c2b_mpesa_confirmation_resource (payload declined_stk) empty_redis).1
    !! "receipt:ws_CO_191220191020363925" = Some (json_dumps record) ∧
  client_error
    (http_status (c2b_mpesa_confirmation_resource (payload declined_stk) empty_redis).2).
Proof.
  apply (failure_callback_recorded_then_rejected (payload declined_stk) declined_stk
           (JStr "29115-34620561-1") "ws_CO_191220191020363925" 1
           "Insufficient funds" empty_redis).
  - envelope.
  - discriminate.
Defined.

(** C3 on the paid callback. *)
Lemma paid_callback_record_keeps_values :
  let record :=
    success_record (JStr "29115-34620561-1") (JStr "ws_CO_191220191020363925")
      (JInt 0) (JStr "The service request is processed successfully.")
      (JInt 1) (JStr "NLJ7RT61SV") (JInt 20191219102115) (JInt 254708374149) in
  db (c2b_mpesa_confirmation_resource (payload paid_stk) empty_redis).1
    !! "receipt:ws_CO_191220191020363925" = Some (json_dumps record) ∧
  getitem record "Amount" = Ok (JInt 1) ∧
  getitem record "MpesaReceiptNumber" = Ok (JStr "NLJ7RT61SV") ∧
  getitem record "TransactionDate" = Ok (JInt 20191219102115) ∧
  getitem record "PhoneNumber" = Ok (JInt 254708374149).
Proof.
  apply (success_record_keeps_metadata_values (payload paid_stk) paid_stk
           (JStr "29115-34620561-1") "ws_CO_191220191020363925" (JInt 0)
           (JStr "The service request is processed successfully.") paid_items
           (JInt 1) (JStr "NLJ7RT61SV") (JInt 20191219102115) (JInt 254708374149)
           empty_redis).
  - envelope.
  - reflexivity.
  - metadata.
  - first_entry.
  - first_entry.
  - first_entry.
  - first_entry.
Defined.

(** C4 as stated fails: in the payload whose [Body] is [null] the required
    field [Body.stkCallback] is absent, and the handler answers with a
    server error, not with a 400-class one. *)
Lemma null_Body_is_a_server_error :
  let req := JObj [("Body", JNull)] in
  ["Body"; "stkCallback"] ∈ required_fields ∧
  lookup_path req ["Body"; "stkCallback"] = None ∧
  c2b_mpesa_confirmation_resource req empty_redis = (empty_redis, Raise TypeError) ∧
  ¬ client_error (http_status (c2b_mpesa_confirmation_resource req empty_redis).2).
Proof.
  repeat split.
  - unfold required_fields. constructor.
  - unfold client_error. simpl. lia.
Qed.

(** C4, amended, on the envelope without [ResultCode]. *)
Lemma no_code_callback_is_rejected :
  c2b_mpesa_confirmation_resource (payload no_code_stk) empty_redis =
    (empty_redis,
     Raise (HTTPException 400 (JStr "Missing required field: 'ResultCode'"))) ∧
  client_error
    (http_status (c2b_mpesa_confirmation_resource (payload no_code_stk) empty_redis).2).
Proof.
  apply (missing_key_is_rejected (payload no_code_stk) "ResultCode" empty_redis).
  unfold payload. eapply missing_field; reflexivity.
Defined.

(** C5 on an [Item] with two entries named "Amount". *)
Lemma first_Amount_of_two_wins :
  next_named "Amount"
    (JArr [ entry "MpesaReceiptNumber" (JStr "NLJ7RT61SV");
            entry "Amount" (JInt 1);
            entry "TransactionDate" (JInt 20191219102115);
            entry "Amount" (JInt 500);
            entry "PhoneNumber" (JInt 254708374149) ]) = Ok (JInt 1).
Proof.
  apply (first_of_repeated_name_wins "Amount"
           [entry "MpesaReceiptNumber" (JStr "NLJ7RT61SV")]
           [("Name", JStr "Amount"); ("Value", JInt 1)]
           [entry "TransactionDate" (JInt 20191219102115)]
           [("Name", JStr "Amount"); ("Value", JInt 500)]
           [entry "PhoneNumber" (JInt 254708374149)] (JInt 1)).
  - entries.
  - reflexivity.
  - reflexivity.
  - reflexivity.
Defined.

(** C6: the declined callback, then the paid callback of the same request. *)
Lemma paid_receipt_overwrites_declined :
  let cid := JStr "ws_CO_191220191020363925" in
  let record1 :=
    failure_record (JStr "29115-34620561-1") cid (JInt 1) (JStr "Insufficient funds") in
  let record2 :=
    success_record (JStr "29115-34620561-1") cid
      (JInt 0) (JStr "The service request is processed successfully.")
      (JInt 1) (JStr "NLJ7RT61SV") (JInt 20191219102115) (JInt 254708374149) in
  let red1 := (c2b_mpesa_confirmation_resource (payload declined_stk) empty_redis).1 in
  let red2 := (c2b_mpesa_confirmation_resource (payload paid_stk) red1).1 in
  db red1 !! receipt_key cid = Some (json_dumps record1) ∧
  db red2 !! receipt_key cid = Some (json_dumps record2) ∧
  db red2 = db (c2b_mpesa_confirmation_resource (payload paid_stk) empty_redis).1 ∧
  set_calls red2 =
    (set_calls empty_redis ++ [(receipt_key cid, json_dumps record1);
                               (receipt_key cid, json_dumps record2)])%list.
Proof.
  apply (later_receipt_overwrites (payload declined_stk) (payload paid_stk)).
  - eapply failure_path; [envelope | reflexivity].
  - eapply success_path;
      [envelope | reflexivity | metadata | first_entry | first_entry | first_entry
      | first_entry].
Defined.

(** C7 on the paid callback. *)
Lemma paid_callback_is_confirmed :
  (c2b_mpesa_confirmation_resource (payload paid_stk) empty_redis).2 =
    Ok {| receipt_id := Some "NLJ7RT61SV"; success := true;
          errors := Some "The service request is processed successfully." |} ∧
  http_status (c2b_mpesa_confirmation_resource (payload paid_stk) empty_redis).2 = 200.
Proof.
  apply (success_callback_is_confirmed (payload paid_stk) paid_stk
           (JStr "29115-34620561-1") (JStr "ws_CO_191220191020363925") (JInt 0)
           "The service request is processed successfully." paid_items
           (JInt 1) "NLJ7RT61SV" (JInt 20191219102115) (JInt 254708374149)
           empty_redis).
  - envelope.
  - reflexivity.
  - metadata.
  - first_entry.
  - first_entry.
  - first_entry.
  - first_entry.
Defined.

(** C9 on the absent body, which the framework hands over as [None]. *)
Lemma absent_body_is_a_server_error :
  c2b_mpesa_confirmation_resource JNull empty_redis = (empty_redis, Raise TypeError) ∧
  http_status (c2b_mpesa_confirmation_resource JNull empty_redis).2 = 500 ∧
  ¬ client_error (http_status (c2b_mpesa_confirmation_resource JNull empty_redis).2).
Proof.
  apply (non_object_body_is_a_server_error JNull empty_redis). reflexivity.
Defined.

(** C10 as stated fails: with [ResultCode] the boolean [false], which is not
    the integer 0, [ResultCode == 0] holds and the handler takes the success
    path: it persists the success-shaped record and returns the
    confirmation. *)
Lemma false_result_code_takes_success_path :
  let req := payload (paid_stk_with_code (JBool false)) in
  let record :=
    success_record (JStr "29115-34620561-1") (JStr "ws_CO_191220191020363925")
      (JBool false) (JStr "The service request is processed successfully.")
      (JInt 1) (JStr "NLJ7RT61SV") (JInt 20191219102115) (JInt 254708374149) in
  lookup_path req ["Body"; "stkCallback"; "ResultCode"] = Some (JBool false) ∧
  JBool false ≠ JInt 0 ∧
  c2b_mpesa_confirmation_resource req empty_redis =
    (redis_set "receipt:ws_CO_191220191020363925" (json_dumps record) empty_redis,
     Ok {| receipt_id := Some "NLJ7RT61SV"; success := true;
           errors := Some "The service request is processed successfully." |}) ∧
  http_status (c2b_mpesa_confirmation_resource req empty_redis).2 = 200.
Proof.
  repeat split. discriminate.
Qed.

(** C10, amended, on the paid callback with [ResultCode] the string "0". *)
Lemma text_result_code_fails :
  let req := payload (paid_stk_with_code (JStr "0")) in
  let cid := JStr "ws_CO_191220191020363925" in
  let record :=
    failure_record (JStr "29115-34620561-1") cid (JStr "0")
      (JStr "The service request is processed successfully.") in
  c2b_mpesa_confirmation_resource req empty_redis =
    (redis_set (receipt_key cid) (json_dumps record) empty_redis,
     Raise (HTTPException 400 (JStr "The service request is processed successfully."))) ∧
  http_status (c2b_mpesa_confirmation_resource req empty_redis).2 = 400.
Proof.
  apply (result_code_unequal_to_zero_fails (payload (paid_stk_with_code (JStr "0")))
           (paid_stk_with_code (JStr "0"))).
  - envelope.
  - discriminate.
  - discriminate.
  - discriminate.
Defined.

(** The failure path on a [ResultDesc] that is [null]: the record keeps the
    [null], the detail of the error is the phrase of the status. *)
Lemma null_description_gets_the_phrase :
  let req := payload (declined_stk_with JNull) in
  let record :=
    failure_record (JStr "29115-34620561-1") (JStr "ws_CO_191220191020363925")
      (JInt 1) JNull in
  c2b_mpesa_confirmation_resource req empty_redis =
    (redis_set "receipt:ws_CO_191220191020363925" (json_dumps record) empty_redis,
     Raise (HTTPException 400 (JStr "Bad Request"))) ∧
  http_status (c2b_mpesa_confirmation_resource req empty_redis).2 = 400.
Proof. split; reflexivity. Qed.

(** The failure path on a [ResultDesc] that is [NaN]: the record is written
    and the error raised, but its detail cannot be rendered and the caller
    gets a server error. *)
Lemma nan_description_fails_the_response :
  let req := payload (declined_stk_with (JFloat PrimFloat.nan)) in
  let record :=
    failure_record (JStr "29115-34620561-1") (JStr "ws_CO_191220191020363925")
      (JInt 1) (JFloat PrimFloat.nan) in
  c2b_mpesa_confirmation_resource req empty_redis =
    (redis_set "receipt:ws_CO_191220191020363925" (json_dumps record) empty_redis,
     Raise (HTTPException 400 (JFloat PrimFloat.nan))) ∧
  http_status (c2b_mpesa_confirmation_resource req empty_redis).2 = 500.
Proof. split; reflexivity. Qed.

(** * The further properties on sample callbacks *)

(** X1 on the paid callback. *)
Lemma paid_confirmation_means_persisted :
  let c := {| receipt_id := Some "NLJ7RT61SV"; success := true;
              errors := Some "The service request is processed successfully." |} in
  let red' := (c2b_mpesa_confirmation_resource (payload paid_stk) empty_redis).1 in
  success c = true ∧
  ∃ stk mid cid rc rd items amount receipt date phone,
    callback_envelope (payload paid_stk) stk mid cid rc rd ∧
    py_eq_zero rc = true ∧
    callback_metadata stk items ∧
    first_named "Amount" items amount ∧
    first_named "MpesaReceiptNumber" items receipt ∧
    first_named "TransactionDate" items date ∧
    first_named "PhoneNumber" items phone ∧
    validate_optional_str receipt = Ok (receipt_id c) ∧
    validate_optional_str rd = Ok (errors c) ∧
    db red' !! receipt_key cid =
      Some (json_dumps (success_record mid cid rc rd amount receipt date phone)).
Proof.
  apply (confirmation_means_persisted (payload paid_stk) empty_redis). reflexivity.
Defined.

(** X3 on the declined callback. *)
Lemma declined_rejection_is_a_reported_failure :
  let req := payload declined_stk in
  let detail := JStr "Insufficient funds" in
  400 = 400 ∧
  ((∃ stk mid cid rc rd,
      callback_envelope req stk mid cid rc rd ∧
      py_eq_zero rc = false ∧
      detail = match rd with
               | JNull => JStr "Bad Request"
               | _ => rd
               end ∧
      (c2b_mpesa_confirmation_resource req empty_redis).1 =
        redis_set (receipt_key cid)
          (json_dumps (failure_record mid cid rc rd)) empty_redis) ∨
   (∃ k, k ∈ lookup_keys ∧
      detail = missing_field_detail k ∧
      (c2b_mpesa_confirmation_resource req empty_redis).1 = empty_redis)).
Proof.
  apply (rejection_is_failure_or_missing_key (payload declined_stk) empty_redis 400
           (JStr "Insufficient funds")).
  reflexivity.
Defined.

(** X5 on the paid callbacks of two requests. *)
Lemma two_paid_receipts_coexist :
  let req1 := payload paid_stk in
  let req2 := payload other_paid_stk in
  let record1 :=
    success_record (JStr "29115-34620561-1") (JStr "ws_CO_191220191020363925")
      (JInt 0) (JStr "The service request is processed successfully.")
      (JInt 1) (JStr "NLJ7RT61SV") (JInt 20191219102115) (JInt 254708374149) in
  let record2 :=
    success_record (JStr "29115-34620561-2") (JStr "ws_CO_191220191020364016")
      (JInt 0) (JStr "The service request is processed successfully.")
      (JInt 1) (JStr "NLJ7RT61SV") (JInt 20191219102115) (JInt 254708374149) in
  let red12 :=
    (c2b_mpesa_confirmation_resource req2
       (c2b_mpesa_confirmation_resource req1 empty_redis).1).1 in
  let red21 :=
    (c2b_mpesa_confirmation_resource req1
       (c2b_mpesa_confirmation_resource req2 empty_redis).1).1 in
  db red12 !! "receipt:ws_CO_191220191020363925" = Some (json_dumps record1) ∧
  db red12 !! "receipt:ws_CO_191220191020364016" = Some (json_dumps record2) ∧
  db red12 = db red21.
Proof.
  apply (distinct_receipts_coexist (payload paid_stk) (payload other_paid_stk)
           "ws_CO_191220191020363925" "ws_CO_191220191020364016").
  - eapply success_path;
      [envelope | reflexivity | metadata | first_entry | first_entry | first_entry
      | first_entry].
  - eapply success_path;
      [envelope | reflexivity | metadata | first_entry | first_entry | first_entry
      | first_entry].
  - discriminate.
Defined.

(** X6 on a key of the response cache. *)
Lemma cache_key_is_left_alone :
  db (c2b_mpesa_confirmation_resource (payload paid_stk) empty_redis).1
    !! "fastapi-cache:cached" = db empty_redis !! "fastapi-cache:cached".
Proof.
  apply (proj1 (only_receipt_keys_are_written (payload paid_stk) empty_redis)).
  reflexivity.
Defined.

(** X7 on a success callback without [CallbackMetadata]. *)
Lemma success_without_metadata_is_rejected :
  c2b_mpesa_confirmation_resource (payload (paid_stk_with [])) empty_redis =
    (empty_redis,
     Raise (HTTPException 400 (missing_field_detail "CallbackMetadata"))).
Proof.
  apply (missing_metadata_container_is_rejected (payload (paid_stk_with []))
           (paid_stk_with [])
           (JStr "29115-34620561-1") (JStr "ws_CO_191220191020363925") (JInt 0)
           (JStr "The service request is processed successfully.")).
  - envelope.
  - reflexivity.
  - left. split; reflexivity.
Defined.

(** X8 on a success callback whose [Item] is an empty object. *)
Lemma empty_object_Item_is_a_server_error :
  let req := payload (paid_stk_with [("CallbackMetadata", JObj [("Item", JObj [])])]) in
  c2b_mpesa_confirmation_resource req empty_redis = (empty_redis, Raise RuntimeError) ∧
  http_status (c2b_mpesa_confirmation_resource req empty_redis).2 = 500.
Proof.
  apply (non_sequence_Item_is_a_server_error
           (payload (paid_stk_with [("CallbackMetadata", JObj [("Item", JObj [])])]))
           (paid_stk_with [("CallbackMetadata", JObj [("Item", JObj [])])])
           (JStr "29115-34620561-1") (JStr "ws_CO_191220191020363925") (JInt 0)
           (JStr "The service request is processed successfully.")
           [("Item", JObj [])] (JObj [])).
  - envelope.
  - reflexivity.
  - reflexivity.
  - reflexivity.
  - reflexivity.
Defined.

(** X9 on the paid callback's entries. *)
Lemma receipt_number_is_extracted :
  next_named "MpesaReceiptNumber" (JArr paid_items) = Ok (JStr "NLJ7RT61SV").
Proof.
  apply (proj2 (extraction_succeeds_on_first_named "MpesaReceiptNumber"
                  (JArr paid_items) (JStr "NLJ7RT61SV"))).
  exists [entry "Amount" (JInt 1)],
         [("Name", JStr "MpesaReceiptNumber"); ("Value", JStr "NLJ7RT61SV")],
         [entry "TransactionDate" (JInt 20191219102115);
          entry "PhoneNumber" (JInt 254708374149)].
  split; [reflexivity|]. split; [entries|]. split; reflexivity.
Defined.

(** X10 on entries without a "PhoneNumber". *)
Lemma phone_number_extraction_exhausts :
  next_named "PhoneNumber" (JArr (take 3 paid_items)) = Raise StopIteration.
Proof.
  apply (proj2 (extraction_exhausts_on_other_names "PhoneNumber" (take 3 paid_items))).
  entries.
Defined.

(** X11 on the provider's "Balance" entry, which has no [Value]. *)
Lemma balance_entry_does_not_matter :
  next_named "TransactionDate" (JArr provider_items) =
  next_named "TransactionDate" (JArr paid_items).
Proof.
  apply (other_entries_do_not_matter "TransactionDate"
           [entry "Amount" (JInt 1); entry "MpesaReceiptNumber" (JStr "NLJ7RT61SV")]
           (JObj [("Name", JStr "Balance")])
           [entry "TransactionDate" (JInt 20191219102115);
            entry "PhoneNumber" (JInt 254708374149)]).
  eexists _, _. split; [reflexivity|]. split; [reflexivity|discriminate].
Defined.

(** X12 on a "TransactionDate" entry without [Value]. *)
Lemma undated_entry_raises_KeyError :
  next_named "TransactionDate" (JArr undated_items) = Raise (KeyError "Value").
Proof.
  apply (incomplete_entry_raises_KeyError "TransactionDate"
           [entry "Amount" (JInt 1); entry "MpesaReceiptNumber" (JStr "NLJ7RT61SV")]
           [("Name", JStr "TransactionDate")]
           [entry "PhoneNumber" (JInt 254708374149)]).
  - entries.
  - right. split; reflexivity.
Defined.

(** X13 on the callback with that entry: the third extraction decides. *)
Lemma undated_callback_is_rejected :
  let req :=
    payload (paid_stk_with [("CallbackMetadata", JObj [("Item", JArr undated_items)])]) in
  c2b_mpesa_confirmation_resource req empty_redis =
    (empty_redis, Raise (HTTPException 400 (missing_field_detail "Value"))).
Proof.
  apply (first_failed_extraction_decides
           (payload (paid_stk_with
              [("CallbackMetadata", JObj [("Item", JArr undated_items)])]))
           (paid_stk_with [("CallbackMetadata", JObj [("Item", JArr undated_items)])])
           (JStr "29115-34620561-1") (JStr "ws_CO_191220191020363925") (JInt 0)
           (JStr "The service request is processed successfully.")
           [("Item", JArr undated_items)] (JArr undated_items)
           ["Amount"; "MpesaReceiptNumber"] "TransactionDate" ["PhoneNumber"]
           (KeyError "Value") empty_redis).
  - envelope.
  - reflexivity.
  - reflexivity.
  - reflexivity.
  - reflexivity.
  - intros n Hn.
    apply elem_of_cons in Hn as [->|Hn]; [eexists; reflexivity|].
    apply elem_of_cons in Hn as [->|Hn]; [eexists; reflexivity|].
    by apply elem_of_nil in Hn.
  - reflexivity.
Defined.

(** X14 on a paid callback whose receipt number is an integer, under the
    validation of pydantic 2. *)
Lemma numbered_receipt_is_still_persisted :
  let stk := paid_stk_with [("CallbackMetadata", JObj [("Item", JArr numbered_items)])] in
  let record :=
    success_record (JStr "29115-34620561-1") (JStr "ws_CO_191220191020363925")
      (JInt 0) (JStr "The service request is processed successfully.")
      (JInt 1) (JInt 7761) (JInt 20191219102115) (JInt 254708374149) in
  (c2b_mpesa_confirmation_resource (payload stk) empty_redis).2 = Raise ValidationError ∧
  http_status (c2b_mpesa_confirmation_resource (payload stk) empty_redis).2 = 500 ∧
  db (c2b_mpesa_confirmation_resource (payload stk) empty_redis).1
    !! receipt_key (JStr "ws_CO_191220191020363925") = Some (json_dumps record).
Proof.
  apply (rejected_confirmation_is_still_persisted
           (payload (paid_stk_with
              [("CallbackMetadata", JObj [("Item", JArr numbered_items)])]))
           (paid_stk_with [("CallbackMetadata", JObj [("Item", JArr numbered_items)])])
           (JStr "29115-34620561-1") (JStr "ws_CO_191220191020363925") (JInt 0)
           (JStr "The service request is processed successfully.") numbered_items
           (JInt 1) (JInt 7761) (JInt 20191219102115) (JInt 254708374149) empty_redis).
  - envelope.
  - reflexivity.
  - metadata.
  - first_entry.
  - first_entry.
  - first_entry.
  - first_entry.
  - left. reflexivity.
Defined.

(** X15 on a callback whose id is the integer 5 and one whose id is the
    string "5". *)
Lemma integer_and_text_ids_share_a_key :
  let req1 := payload (declined_stk_for (JInt 5)) in
  let req2 := payload (declined_stk_for (JStr "5")) in
  let record1 :=
    failure_record (JStr "29115-34620561-1") (JInt 5) (JInt 1032)
      (JStr "Request cancelled by user") in
  let record2 :=
    failure_record (JStr "29115-34620561-1") (JStr "5") (JInt 1032)
      (JStr "Request cancelled by user") in
  let red1 := (c2b_mpesa_confirmation_resource req1 empty_redis).1 in
  let red2 := (c2b_mpesa_confirmation_resource req2 red1).1 in
  db red1 !! receipt_key (JInt 5) = Some (json_dumps record1) ∧
  db red2 !! receipt_key (JInt 5) = Some (json_dumps record2) ∧
  db red2 = db (c2b_mpesa_confirmation_resource req2 empty_redis).1.
Proof.
  apply (receipts_are_keyed_by_the_formatted_id
           (payload (declined_stk_for (JInt 5))) (payload (declined_stk_for (JStr "5")))
           (JInt 5) (JStr "5")).
  - eapply failure_path; [envelope | reflexivity].
  - eapply failure_path; [envelope | reflexivity].
  - vm_compute. reflexivity.
Defined.

(** X16 on a payload whose [stkCallback] is a list. *)
Lemma list_stkCallback_is_a_server_error :
  let top := [("Body", JObj [("stkCallback", JArr [])])] in
  c2b_mpesa_confirmation_resource (JObj top) empty_redis = (empty_redis, Raise TypeError) ∧
  http_status (c2b_mpesa_confirmation_resource (JObj top) empty_redis).2 = 500.
Proof.
  apply (non_object_container_is_a_server_error
           [("Body", JObj [("stkCallback", JArr [])])] (JArr []) empty_redis).
  - right. exists [("stkCallback", JArr [])]. split; reflexivity.
  - reflexivity.
Defined.
